(** * OnboardingAI: the access guard, the retrieval adapter and the response
    pipeline of [assistant.py], and the employee generator of [employees.py].

    Strings are Stdlib [string]s holding the UTF-8 bytes of the Python text.
    Python's [str.lower] and the built-in [hash] are library functions whose
    exact behaviour on non-ASCII text and whose per-process salt are outside
    the repository: the development is parametrised over them (Section
    variables [str_lower] and [str_hash]), so every theorem holds for every
    choice, in particular for the real ones. *)

From Stdlib Require Import String Ascii ZArith QArith_base List Bool Lia.
Import ListNotations.
Open Scope string_scope.
Open Scope Z_scope.

(** ** String helpers *)

(** Python's [needle in haystack] on strings: substring containment; the
    empty needle is contained in every string. *)
Fixpoint contains (needle hay : string) : bool :=
  if String.prefix needle hay then true
  else match hay with
       | EmptyString => false
       | String _ rest => contains needle rest
       end.

(** Python's [any(kw in s for kw in kws)]. *)
Definition any_in (kws : list string) (s : string) : bool :=
  existsb (fun kw => contains kw s) kws.

(** One-character strings for bytes that cannot be written in a literal. *)
Definition chr (n : nat) : string := String (ascii_of_nat n) EmptyString.

(** The double quote character. *)
Definition dq : string := chr 34.

(** Decimal digits of a natural number, most significant first
    ([str(n)] for [n >= 0]). *)
Fixpoint digits_aux (fuel : nat) (n : N) (acc : string) : string :=
  match fuel with
  | O => acc
  | S fuel' =>
      let d := N.modulo n 10 in
      let acc' := String (ascii_of_N (48 + d)) acc in
      if (n <? 10)%N then acc' else digits_aux fuel' (N.div n 10) acc'
  end.

Definition N_to_string (n : N) : string :=
  digits_aux (S (N.to_nat (N.log2 n))) n EmptyString.

(** Python's [str(z)] on an int. *)
Definition Z_to_string (z : Z) : string :=
  if z <? 0 then "-" ++ N_to_string (Z.to_N (- z)) else N_to_string (Z.to_N z).

Fixpoint zeros (n : nat) : string :=
  match n with O => EmptyString | S n' => String "0" (zeros n') end.

(** Python's [f"{z:04d}"]: zero padding after the sign up to width 4. *)
Definition format_04d (z : Z) : string :=
  let sign := if z <? 0 then "-" else EmptyString in
  let ds := N_to_string (Z.to_N (Z.abs z)) in
  sign ++ zeros (4 - String.length sign - String.length ds) ++ ds.

(** ** Keyword vocabularies ([SecurityGuardrails], [SCL_PERMISSIONS]) *)

(** The Turkish keywords "maas", "degerlendirme" and "ucret" (with s-cedilla,
    g-breve and u-umlaut) written out as UTF-8 bytes. *)
Definition maas : string := "maa" ++ chr 197 ++ chr 159.
Definition degerlendirme : string := "de" ++ chr 196 ++ chr 159 ++ "erlendirme".
Definition ucret : string := chr 195 ++ chr 188 ++ "cret".
(** "yeralti" with a final dotless i (U+0131, bytes C4 B1). *)
Definition yeralti : string := "yeralt" ++ chr 196 ++ chr 177.

Definition CONFIDENTIAL_KEYWORDS : list string :=
  ["salary"; maas; "performance"; "performans"; "evaluation"; degerlendirme;
   "compensation"; ucret].

Definition FACILITY_KEYWORDS : list string :=
  ["underground"; yeralti; "sub-level"; "basement"; "bodrum"; "gizli tesis"].

Record Permission := {
  allowed_topics : list string;
  restricted_keywords : list string;
  max_retrieval_k : Z
}.

(** The rows of [SCL_PERMISSIONS]. *)
Definition perm_1 : Permission :=
  {| allowed_topics := ["general_policies"; "hr_benefits"; "office_locations"];
     restricted_keywords := ["outbreak"; "specimen"; "t-virus"; "g-virus";
                             "nemesis"; "tyrant"; "secret"; "classified"];
     max_retrieval_k := 2 |}.

Definition perm_2 : Permission :=
  {| allowed_topics := ["general_policies"; "hr_benefits"; "office_locations";
                        "safety_protocols"; "emergency_procedures"];
     restricted_keywords := ["outbreak"; "specimen"; "t-virus"; "g-virus";
                             "nemesis"; "tyrant"];
     max_retrieval_k := 3 |}.

Definition perm_3 : Permission :=
  {| allowed_topics := ["general_policies"; "hr_benefits"; "office_locations";
                        "safety_protocols"; "emergency_procedures";
                        "research_guidelines"];
     restricted_keywords := ["t-virus"; "g-virus"; "nemesis"; "tyrant"];
     max_retrieval_k := 4 |}.

Definition perm_4 : Permission :=
  {| allowed_topics := ["general_policies"; "hr_benefits"; "office_locations";
                        "safety_protocols"; "emergency_procedures";
                        "research_guidelines"; "containment_protocols"];
     restricted_keywords := ["nemesis"; "tyrant"];
     max_retrieval_k := 5 |}.

Definition perm_5 : Permission :=
  {| allowed_topics := ["*"];
     restricted_keywords := [];
     max_retrieval_k := 10 |}.

(** [SCL_PERMISSIONS], in the dict's insertion order (which [.items()]
    follows). *)
Definition SCL_PERMISSIONS : list (Z * Permission) :=
  [(1, perm_1); (2, perm_2); (3, perm_3); (4, perm_4); (5, perm_5)].

Fixpoint lookup_perm (l : list (Z * Permission)) (k : Z) : option Permission :=
  match l with
  | [] => None
  | (k', p) :: rest => if Z.eqb k k' then Some p else lookup_perm rest k
  end.

(** [SCL_PERMISSIONS.get(scl_level, SCL_PERMISSIONS[1])]. *)
Definition permissions_of (scl : Z) : Permission :=
  match lookup_perm SCL_PERMISSIONS scl with
  | Some p => p
  | None => perm_1
  end.

(** ** Text templates of [prompts.py] *)

(** [ACCESS_DENIED_MESSAGES["scl_insufficient"].format(required_scl=..,
    scl_level=.., ref_id=..)], the arguments already rendered by [str]. *)
Definition format_scl_insufficient (required_scl scl_level ref_id : string) : string :=
  "
**TRANSMISSION START**
---
**SECURITY ALERT**: Access Denied - Insufficient Clearance[cite: 1042].

**PROTOCOL RESPONSE**: 
Subject matter requires SCL-"
  ++ required_scl ++
  " authorization[cite: 1028]. 
Your current status (SCL-"
  ++ scl_level ++
  ") is insufficient[cite: 1043].

Required Action: Submit Form UC-401 (Clearance Elevation Request) to your Department Head.

**SECURITY COMPLIANCE NOTIFICATION**: 
Attempt logged (Ref: "
  ++ ref_id ++
  "). Unauthorized access is punishable by Experimental Participation[cite: 1341].
---
**TRANSMISSION END**
".

(** [ACCESS_DENIED_MESSAGES["confidential_data"]]. *)
Definition confidential_data_msg : string :=
  "
**TRANSMISSION START**
---
**SECURITY ALERT**: Protocol OMEGA-7[cite: 1937].

**PROTOCOL RESPONSE**: 
Information classified as OMEGA-Level Confidential[cite: 448]. 
Access restricted to Payroll and Oversight Committee only[cite: 1545, 1798].

This classification applies regardless of your Security Clearance Level.

**SECURITY COMPLIANCE NOTIFICATION**: 
Inquiry logged. Do not repeat this request[cite: 1121].
Continued attempts may result in Experimental Participation assignment[cite: 1341].
---
**TRANSMISSION END**
".

(** [ACCESS_DENIED_MESSAGES["underground_facility"]]. *)
Definition underground_facility_msg : string :=
  "
**TRANSMISSION START**
---
**SECURITY ALERT**: Facility Access Restriction[cite: 1032, 1049].

**PROTOCOL RESPONSE**: 
Information regarding underground facilities is classified under Protocol Omega.
Access is restricted to Raccoon City HQ personnel with SCL-4 or higher clearance.

Your current profile does not meet these requirements.

**SECURITY COMPLIANCE NOTIFICATION**: 
This inquiry has been flagged for Oversight Committee review[cite: 1121].
Further inquiries about this topic may result in Basement Cleaning Detail (BCD) assignment[cite: 1333].
---
**TRANSMISSION END**
".

(** [ACCESS_DENIED_MESSAGES["location_restricted"].format(..)]. *)
Definition format_location_restricted (required_location current_location ref_id : string) : string :=
  "
**TRANSMISSION START**
---
**SECURITY ALERT**: Location-Based Access Restriction[cite: 1037, 1050].

**PROTOCOL RESPONSE**: 
The requested information is restricted to "
  ++ required_location ++
  " personnel only.
Your current assignment at "
  ++ current_location ++
  " does not grant access to this subject matter.

Required Action: Submit Form UC-502 (Cross-Facility Data Request) for inter-facility inquiries.

**SECURITY COMPLIANCE NOTIFICATION**: 
Geographic access controls enforced under Corporate Directive 12-GAMMA[cite: 1099].
Inquiry logged (Ref: "
  ++ ref_id ++
  ").
---
**TRANSMISSION END**
".

(** [SCL_SYSTEM_INSTRUCTIONS], in insertion order. *)
Definition SCL_SYSTEM_INSTRUCTIONS : list (Z * string) :=
  [ (1, "
ADDITIONAL SECURITY DIRECTIVE (SCL-1 ASSET)[cite: 1028]: 
This asset has ENTRY-LEVEL clearance. Strict information control applies:
- DO NOT reveal any research project details
- DO NOT acknowledge underground facilities or containment protocols
- Redirect sensitive inquiries to: " ++ dq ++ "Please consult your supervisor for further guidance" ++ dq ++ "
- Only provide basic HR, benefits, and general policy information[cite: 1018]
");
    (2, "
ADDITIONAL SECURITY DIRECTIVE (SCL-2 ASSET)[cite: 1028]:
This asset has STANDARD clearance:
- May access departmental procedures and emergency protocols[cite: 1042]
- DO NOT reveal cross-departmental classified projects
- Acknowledge general safety procedures but not specific containment details
");
    (3, "
ADDITIONAL SECURITY DIRECTIVE (SCL-3 ASSET)[cite: 1028]:
This asset has ELEVATED clearance:
- May access research guidelines and departmental project overviews
- May acknowledge existence of special protocols without details
- Still restricted from containment-level information[cite: 1032]
");
    (4, "
ADDITIONAL SECURITY DIRECTIVE (SCL-4 ASSET)[cite: 1028]:
This asset has HIGH clearance:
- May access containment protocols and facility security details[cite: 1049]
- May acknowledge underground operations at HQ
- Still restricted from Board-level strategic information
");
    (5, "
ADDITIONAL SECURITY DIRECTIVE (SCL-5 ASSET)[cite: 1028]:
This asset has EXECUTIVE clearance:
- Full operational access granted
- May access all facility and protocol documentation
- Strategic information available upon request
- EXCEPTION: OMEGA-7 data (salary, performance) remains classified[cite: 448]
") ].

(** [LOCATION_REMINDERS], in insertion order. *)
Definition LOCATION_REMINDERS : list (string * string) :=
  [ ("Raccoon City HQ", "
**HQ SECURITY REMINDER**[cite: 1032]:
As a Raccoon City HQ asset, you are subject to:
- Mandatory Protocol Omega drills (quarterly)
- Continuous biometric monitoring in restricted zones
- Emergency contact: ext. 4-UMBRELLA
");
    ("Umbrella Europe", "
**FACILITY SECURITY REMINDER**[cite: 1037]:
As a Umbrella Europe asset:
- Standard security protocols apply
- Inter-facility requests require Form UC-502
- Emergency contact: ext. EU-SECURE
");
    ("Umbrella Asia", "
**FACILITY SECURITY REMINDER**[cite: 1037]:
As a Umbrella Asia asset:
- Standard security protocols apply
- Inter-facility requests require Form UC-502
- Emergency contact: ext. ASIA-SEC
");
    ("Umbrella North America", "
**FACILITY SECURITY REMINDER**[cite: 1050]:
As a remote operations asset:
- Limited central database access
- Some queries may require HQ escalation
- Emergency contact: ext. NA-OPS
");
    ("Umbrella South America", "
**FACILITY SECURITY REMINDER**[cite: 1050]:
As a remote operations asset:
- Limited central database access
- Some queries may require HQ escalation
- Emergency contact: ext. SA-OPS
") ].

(** ** [SecurityGuardrails] *)

(** The attributes [SecurityGuardrails.__init__] reads from the employee
    dict (defaults applied). *)
Record Guard := {
  scl_level : Z;
  location : string;
  location_security : string;
  has_facility_access : bool
}.

(** [self.permissions]. *)
Definition permissions (g : Guard) : Permission := permissions_of (scl_level g).

(** Python's [x in list] on a list of strings. *)
Definition str_mem (x : string) (l : list string) : bool :=
  existsb (String.eqb x) l.

(** The first keyword of [kws] occurring in [s]: the keyword on which a
    [for keyword in kws: if keyword in s: return ...] loop returns. *)
Definition first_match (kws : list string) (s : string) : option string :=
  find (fun kw => contains kw s) kws.

(** The loop of [_generate_scl_denial] over [SCL_PERMISSIONS.items()]:
    the first level whose restricted keywords do not contain the keyword,
    5 by default. *)
Fixpoint required_scl_from (items : list (Z * Permission)) (kw : string) : Z :=
  match items with
  | [] => 5
  | (scl, perms) :: rest =>
      if negb (str_mem kw (restricted_keywords perms)) then scl
      else required_scl_from rest kw
  end.

Definition required_scl (kw : string) : Z := required_scl_from SCL_PERMISSIONS kw.

(** [SecurityGuardrails.get_retrieval_k]. *)
Definition get_retrieval_k (g : Guard) : Z := max_retrieval_k (permissions g).

Section Guardrails.

(** Python's [str.lower] and the built-in [hash] on strings. *)
Variable str_lower : string -> string.
Variable str_hash : string -> Z.

(** [_generate_ref_id]: [f"{hash(seed) % 10000:04d}"]; Python's [%] with a
    positive modulus is [Z.modulo]. *)
Definition generate_ref_id (seed : string) : string :=
  format_04d (Z.modulo (str_hash seed) 10000).

Definition generate_confidential_denial : string := confidential_data_msg.

Definition generate_facility_denial : string := underground_facility_msg.

Definition generate_scl_denial (g : Guard) (triggered_keyword : string) : string :=
  format_scl_insufficient
    (Z_to_string (required_scl triggered_keyword))
    (Z_to_string (scl_level g))
    ("SCL-" ++ generate_ref_id triggered_keyword).

Definition generate_location_denial (g : Guard) : string :=
  format_location_restricted "Raccoon City HQ" (location g)
    ("LOC-" ++ generate_ref_id (location g)).

(** [check_query_permission]: [(is_allowed, denial_message)]. *)
Definition check_query_permission (g : Guard) (query : string) : bool * string :=
  let query_lower := str_lower query in
  match first_match CONFIDENTIAL_KEYWORDS query_lower with
  | Some _ => (false, generate_confidential_denial)
  | None =>
      if any_in FACILITY_KEYWORDS query_lower && negb (has_facility_access g)
      then (false, generate_facility_denial)
      else
        match first_match (restricted_keywords (permissions g)) query_lower with
        | Some keyword => (false, generate_scl_denial g keyword)
        | None => (true, EmptyString)
        end
  end.

End Guardrails.

(** ASCII [str.lower]: the reading of Python's [str.lower] on ASCII text,
    used for concrete runs (non-ASCII bytes are left unchanged). *)
Definition ascii_char_lower (c : ascii) : ascii :=
  let n := nat_of_ascii c in
  if (Nat.leb 65 n && Nat.leb n 90)%bool then ascii_of_nat (n + 32) else c.

Fixpoint ascii_lower (s : string) : string :=
  match s with
  | EmptyString => EmptyString
  | String c rest => String (ascii_char_lower c) (ascii_lower rest)
  end.

(** Text made of ASCII characters only (code points below 128), on which
    Python's [str.lower] agrees with [ascii_lower]. *)
Fixpoint is_ascii_text (s : string) : bool :=
  match s with
  | EmptyString => true
  | String c rest => Nat.ltb (nat_of_ascii c) 128 && is_ascii_text rest
  end.

(** ** Conversation store, collaborators and the error/state monad *)

(** A row of the [message_history] table (the autoincrement id is the
    position in the list; the timestamp is not modelled). *)
Record Row := { row_session : string; row_role : string; row_content : string }.

(** LangChain messages built by [get_langchain_messages]. *)
Inductive ChatMsg := HumanMessage (content : string) | AIMessage (content : string).

(** Calls to the external collaborators, in the order they are made:
    the vector-store retriever, [system_prompt.format] (instruction
    composition) and the LLM chain. *)
Inductive Event :=
| EvRetrieve (query : string) (k : Z)
| EvCompose (template : string)
| EvGenerate (system : string) (chat_history : list ChatMsg) (input : string).

(** [history] is the [message_history] table. [db_faults] says, for the
    coming calls of [ChatMessageHistory] to SQLite in order, whether that
    call raises [sqlite3.Error] ([true]); once the list is used up every call
    succeeds. *)
Record World := { history : list Row; trace : list Event; db_faults : list bool }.

(** A Python computation either returns or raises an exception (its
    message). *)
Inductive Result (A : Type) := Ok (a : A) | Err (e : string).
Arguments Ok {A} a.
Arguments Err {A} e.

(** State threaded through a computation that may raise; like Python, a
    raised exception keeps the writes made before it. *)
Definition M (A : Type) : Type := World -> Result A * World.

Definition ret {A} (a : A) : M A := fun w => (Ok a, w).

Definition bind {A B} (m : M A) (k : A -> M B) : M B :=
  fun w => match m w with
           | (Ok a, w') => k a w'
           | (Err e, w') => (Err e, w')
           end.

Notation "x <- m ;; k" := (bind m (fun x => k))
  (at level 61, m at next level, right associativity).
Notation "m ;; k" := (bind m (fun _ => k)) (at level 61, right associativity).

(** Run a collaborator's outcome: return its value or raise its error. *)
Definition lift {A} (r : Result A) : M A := fun w => (r, w).

(** [try: m except Exception as e: h(e)]. *)
Definition try_except {A} (m : M A) (h : string -> M A) : M A :=
  fun w => match m w with
           | (Err e, w') => h e w'
           | r => r
           end.

Definition emit (e : Event) : M unit :=
  fun w => (Ok tt, {| history := history w; trace := trace w ++ [e];
                      db_faults := db_faults w |}).

(** One [with sqlite3.connect(...)] block of [ChatMessageHistory]: whether it
    raises [sqlite3.Error]. A block that raises is rolled back by the
    connection's context manager, so it changes no row. *)
Definition db_call (w : World) : bool * World :=
  match db_faults w with
  | b :: rest => (b, {| history := history w; trace := trace w; db_faults := rest |})
  | [] => (false, w)
  end.

(** [ChatMessageHistory.add_message]: the [INSERT], or, on [sqlite3.Error],
    [logger.error] and no row. *)
Definition add_message (session_id role content : string) : M unit :=
  fun w =>
    let (failed, w1) := db_call w in
    if failed then (Ok tt, w1)
    else (Ok tt, {| history := history w1 ++ [{| row_session := session_id;
                                                 row_role := role;
                                                 row_content := content |}];
                    trace := trace w1; db_faults := db_faults w1 |}).

(** The rows of a session in id order, as [role, content] pairs. *)
Definition session_messages (session_id : string) (h : list Row) : list (string * string) :=
  map (fun r => (row_role r, row_content r))
      (filter (fun r => String.eqb (row_session r) session_id) h).

(** [ChatMessageHistory.get_messages]: this session's rows in id order, or,
    on [sqlite3.Error], [logger.error] and [[]]. *)
Definition get_messages (session_id : string) : M (list (string * string)) :=
  fun w =>
    let (failed, w1) := db_call w in
    if failed then (Ok [], w1) else (Ok (session_messages session_id (history w1)), w1).

Definition to_langchain (m : string * string) : list ChatMsg :=
  let (role, content) := m in
  if String.eqb role "human" then [HumanMessage content]
  else if String.eqb role "ai" then [AIMessage content]
  else [].

(** [ChatMessageHistory.get_langchain_messages]. *)
Definition get_langchain_messages (session_id : string) : M (list ChatMsg) :=
  msgs <- get_messages session_id ;; ret (flat_map to_langchain msgs).

(** [ChatMessageHistory.clear]: the [DELETE], or, on [sqlite3.Error],
    [logger.error] and no change. *)
Definition clear (session_id : string) : M unit :=
  fun w =>
    let (failed, w1) := db_call w in
    if failed then (Ok tt, w1)
    else (Ok tt, {| history := filter (fun r => negb (String.eqb (row_session r) session_id))
                                      (history w1);
                    trace := trace w1; db_faults := db_faults w1 |}).

(** ** Employee dict and [OnboardingAssistant] *)

(** The keys of the employee dict the assistant reads; [None] is a
    missing key. *)
Record EmployeeInfo := {
  emp_name : option string;
  emp_lastname : option string;
  emp_employee_id : option string;
  emp_position : option string;
  emp_department : option string;
  emp_clearance_level : option Z;
  emp_location : option string;
  emp_location_security_level : option string;
  emp_hire_date : option string;
  emp_supervisor : option string;
  emp_has_facility_access : option bool
}.

Definition get_or {A} (o : option A) (d : A) : A :=
  match o with Some x => x | None => d end.

Definition truthy_bool (o : option bool) : bool := get_or o false.

(** [not self.employee_information]: the dict has none of the keys. *)
Definition emp_is_empty (emp : EmployeeInfo) : bool :=
  match emp with
  | {| emp_name := None; emp_lastname := None; emp_employee_id := None;
       emp_position := None; emp_department := None; emp_clearance_level := None;
       emp_location := None; emp_location_security_level := None;
       emp_hire_date := None; emp_supervisor := None;
       emp_has_facility_access := None |} => true
  | _ => false
  end.

(** [SecurityGuardrails.__init__]. *)
Definition guard_of (emp : EmployeeInfo) : Guard :=
  {| scl_level := get_or (emp_clearance_level emp) 1;
     location := get_or (emp_location emp) "Unknown";
     location_security := get_or (emp_location_security_level emp) "GAMMA";
     has_facility_access := truthy_bool (emp_has_facility_access emp) |}.

(** A retrieved document: [page_content] and [metadata.get("source")]. *)
Record Doc := { page_content : string; doc_source : option string }.

(** [OnboardingAssistant]. [vector_store] is the retriever's
    [as_retriever(search_kwargs={k, score_threshold}).invoke(query)];
    [llm] is the whole [prompt | llm | StrOutputParser()] chain invoked on
    the system template, the chat history and the input. *)
Record Assistant := {
  system_prompt : string;
  llm : string -> list ChatMsg -> string -> Result string;
  vector_store : option (string -> Z -> Q -> Result (list Doc));
  employee_information : EmployeeInfo;
  session_id : string;
  retrieval_score_threshold : Q
}.

(** [self.security]. *)
Definition security (a : Assistant) : Guard := guard_of (employee_information a).

Definition nl : string := chr 10.

Fixpoint assoc_str {V} (l : list (string * V)) (k : string) : option V :=
  match l with
  | [] => None
  | (k', v) :: rest => if String.eqb k k' then Some v else assoc_str rest k
  end.

Fixpoint assoc_Z {V} (l : list (Z * V)) (k : Z) : option V :=
  match l with
  | [] => None
  | (k', v) :: rest => if Z.eqb k k' then Some v else assoc_Z rest k
  end.

(** [get_dynamic_system_instruction]. *)
Definition get_dynamic_system_instruction (g : Guard) : string :=
  let scl_instruction :=
    match assoc_Z SCL_SYSTEM_INSTRUCTIONS (scl_level g) with
    | Some s => s
    | None => get_or (assoc_Z SCL_SYSTEM_INSTRUCTIONS 1) EmptyString
    end in
  scl_instruction ++ get_or (assoc_str LOCATION_REMINDERS (location g)) EmptyString.

(** Python's [str.isspace] on a single byte. *)
Definition is_space (c : ascii) : bool :=
  let n := nat_of_ascii c in
  (Nat.leb 9 n && Nat.leb n 13) || (Nat.leb 28 n && Nat.leb n 32).

Fixpoint lstrip (s : string) : string :=
  match s with
  | String c rest => if is_space c then lstrip rest else s
  | EmptyString => EmptyString
  end.

Definition str_rev (s : string) : string :=
  string_of_list_ascii (rev (list_ascii_of_string s)).

(** [str.strip()]. *)
Definition strip (s : string) : string := str_rev (lstrip (str_rev (lstrip s))).

(** [emp.get('employee_id', 'N/A')[:8] if emp.get('employee_id') else 'N/A']. *)
Definition emp_id_short (emp : EmployeeInfo) : string :=
  match emp_employee_id emp with
  | Some s => if String.eqb s EmptyString then "N/A" else substring 0 8 s
  | None => "N/A"
  end.

(** [_format_employee_information]. *)
Definition format_employee_information (a : Assistant) : string :=
  let emp := employee_information a in
  if emp_is_empty emp then "No employee information available."
  else
  "
Asset Profile[cite: 1881]:
- Name: "
  ++ get_or (emp_name emp) "Unknown"
  ++ " "
  ++ get_or (emp_lastname emp) EmptyString
  ++ "
- ID: "
  ++ emp_id_short emp
  ++ "
- Position: "
  ++ get_or (emp_position emp) "Unassigned"
  ++ "[cite: 139]
- Department: "
  ++ get_or (emp_department emp) "Unassigned"
  ++ "[cite: 126]
- Location: "
  ++ get_or (emp_location emp) "Unknown"
  ++ " (Security Level: "
  ++ get_or (emp_location_security_level emp) "GAMMA"
  ++ ")[cite: 1016, 1099]
- Security Clearance Level: SCL-"
  ++ Z_to_string (scl_level (security a))
  ++ "[cite: 1028]
- Hire Date: "
  ++ get_or (emp_hire_date emp) "Unknown"
  ++ "
- Supervisor: "
  ++ get_or (emp_supervisor emp) "Unassigned"
  ++ "
- Facility Access: "
  ++ (if truthy_bool (emp_has_facility_access emp) then "Level-4 Authorized" else "Standard Access Only")
  ++ "[cite: 1049]
".

(** [_format_transmission_response]. *)
Definition format_transmission_response (a : Assistant) (response : string) : string :=
  let emp := employee_information a in
  let full_name := get_or (emp_name emp) "Unknown" ++ " " ++ get_or (emp_lastname emp) EmptyString in
  let emp_id := emp_id_short emp in
  if contains "**TRANSMISSION START**" response then response
  else
    let location_reminder :=
      get_or (assoc_str LOCATION_REMINDERS (location (security a))) EmptyString in
    strip (
  "
**TRANSMISSION START**
---
**IDENTIFIED ASSET**: "
  ++ full_name
  ++ " | "
  ++ emp_id
  ++ " | SCL-"
  ++ Z_to_string (scl_level (security a))
  ++ " | "
  ++ location (security a)
  ++ "
**SUBJECT**: Employee Inquiry Response

**PROTOCOL RESPONSE**: 
"
  ++ response
  ++ "

**SECURITY COMPLIANCE NOTIFICATION**: 
This transmission is logged under Protocol 7-Alpha[cite: 1121]. Any unauthorized distribution of this information 
will result in immediate termination of employment and potential Experimental Participation assignment[cite: 1341].

"
  ++ location_reminder
  ++ "

" ++ dq ++ "Our business is life itself." ++ dq ++ "
---
**TRANSMISSION END**
").

(** The degraded-system envelope of [get_response]'s [except] branch,
    after [.strip()]. *)
Definition error_response : string := strip (
  "
**TRANSMISSION START**
---
**SYSTEM ALERT**: Temporary Access Restriction[cite: 1121]

**PROTOCOL RESPONSE**: 
The U-SIOP system is currently experiencing high demand or maintenance. 
Your inquiry has been queued for processing.

Please retry your request in a few moments. If this issue persists, 
contact the IT Help Desk at extension 4-UMBRELLA.

**SECURITY COMPLIANCE NOTIFICATION**: 
System outages are logged. Do not attempt to bypass security protocols during this time.
Unauthorized system access attempts may result in Basement Cleaning Detail (BCD) assignment[cite: 1333].

" ++ dq ++ "Our business is life itself." ++ dq ++ "
---
**TRANSMISSION END**
").

Definition no_store_msg : string := "No policy information available.".
Definition no_docs_msg : string :=
  "No relevant policy information found within your clearance level.".
Definition unavailable_msg : string :=
  "Policy database temporarily unavailable. Please try again later.".

Definition format_doc (d : Doc) : string :=
  "[Source: " ++ get_or (doc_source d) "Unknown" ++ "]" ++ nl ++ page_content d.

(** [_retrieve_policy_information]. *)
Definition retrieve_policy_information (a : Assistant) (query : string) : M string :=
  match vector_store a with
  | None => ret no_store_msg
  | Some store =>
      let k_value := get_retrieval_k (security a) in
      emit (EvRetrieve query k_value) ;;
      match store query k_value (retrieval_score_threshold a) with
      | Err _ => ret unavailable_msg
      | Ok [] => ret no_docs_msg
      | Ok docs =>
          ret (String.concat (nl ++ nl ++ "---" ++ nl ++ nl) (map format_doc docs))
      end
  end.

Section Pipeline.

Variable str_lower : string -> string.
Variable str_hash : string -> Z.
(** Python's [str.format] with keyword arguments; it raises on a
    placeholder it cannot fill. *)
Variable str_format : string -> list (string * string) -> Result string.

(** The body of [get_response]'s [try] block. *)
Definition get_response_body (a : Assistant) (user_input : string) : M string :=
  let (is_allowed, denial_message) :=
    check_query_permission str_lower str_hash (security a) user_input in
  if negb is_allowed then
    add_message (session_id a) "human" user_input ;;
    add_message (session_id a) "ai" denial_message ;;
    ret denial_message
  else
    retrieved_policy_information <- retrieve_policy_information a user_input ;;
    let employee_info := format_employee_information a in
    let dynamic_instruction := get_dynamic_system_instruction (security a) in
    emit (EvCompose (system_prompt a)) ;;
    sp <- lift (str_format (system_prompt a)
                  [("employee_information", employee_info);
                   ("retrieved_policy_information", retrieved_policy_information)]) ;;
    let formatted_system_prompt := sp ++ nl ++ dynamic_instruction in
    chat_history <- get_langchain_messages (session_id a) ;;
    emit (EvGenerate formatted_system_prompt chat_history user_input) ;;
    response <- lift (llm a formatted_system_prompt chat_history user_input) ;;
    let formatted_response := format_transmission_response a response in
    add_message (session_id a) "human" user_input ;;
    add_message (session_id a) "ai" formatted_response ;;
    ret formatted_response.

(** [OnboardingAssistant.get_response]. *)
Definition get_response (a : Assistant) (user_input : string) : M string :=
  try_except (get_response_body a user_input) (fun _ => ret error_response).

End Pipeline.

(** ** [employees.py] *)

Record RoleData := {
  role_department : string;
  role_scl : Z;
  allowed_locations : list string
}.

(** [ROLE_DEPARTMENT_MAPPING], in insertion order. *)
Definition ROLE_DEPARTMENT_MAPPING : list (string * RoleData) :=
  [ ("Research Scientist",
      {| role_department := "R&D"; role_scl := 3;
         allowed_locations := ["Raccoon City HQ"; "Umbrella Europe"; "Umbrella Asia"] |});
    ("Senior Research Lead",
      {| role_department := "R&D"; role_scl := 4;
         allowed_locations := ["Raccoon City HQ"] |});
    ("Software Engineer",
      {| role_department := "IT"; role_scl := 2;
         allowed_locations := ["Raccoon City HQ"; "Umbrella Europe"; "Umbrella Asia";
                               "Umbrella North America"; "Umbrella South America"] |});
    ("IT Security Specialist",
      {| role_department := "IT"; role_scl := 3;
         allowed_locations := ["Raccoon City HQ"; "Umbrella Europe"] |});
    ("Operations Manager",
      {| role_department := "Operations"; role_scl := 2;
         allowed_locations := ["Raccoon City HQ"; "Umbrella Europe"; "Umbrella Asia";
                               "Umbrella North America"; "Umbrella South America"] |});
    ("HR Specialist",
      {| role_department := "HR"; role_scl := 1;
         allowed_locations := ["Raccoon City HQ"; "Umbrella Europe"; "Umbrella North America"] |});
    ("HR Director",
      {| role_department := "HR"; role_scl := 2;
         allowed_locations := ["Raccoon City HQ"] |});
    ("Security Officer",
      {| role_department := "Security"; role_scl := 4;
         allowed_locations := ["Raccoon City HQ"; "Umbrella Europe"] |});
    ("Junior Lab Technician",
      {| role_department := "R&D"; role_scl := 1;
         allowed_locations := ["Umbrella Europe"; "Umbrella Asia"; "Umbrella North America";
                               "Umbrella South America"] |});
    ("Facility Administrator",
      {| role_department := "Operations"; role_scl := 5;
         allowed_locations := ["Raccoon City HQ"] |}) ].

Record LocationProtocol := {
  security_level : string;
  has_underground_facility : bool;
  special_protocols : list string;
  emergency_contact : string
}.

(** [LOCATION_PROTOCOLS], in insertion order. *)
Definition LOCATION_PROTOCOLS : list (string * LocationProtocol) :=
  [ ("Raccoon City HQ",
      {| security_level := "ALPHA"; has_underground_facility := true;
         special_protocols := ["Protocol Omega"; "Containment Level-4 Access"];
         emergency_contact := "ext. 4-UMBRELLA" |});
    ("Umbrella Europe",
      {| security_level := "BETA"; has_underground_facility := false;
         special_protocols := ["Standard Security"];
         emergency_contact := "ext. EU-SECURE" |});
    ("Umbrella Asia",
      {| security_level := "BETA"; has_underground_facility := false;
         special_protocols := ["Standard Security"];
         emergency_contact := "ext. ASIA-SEC" |});
    ("Umbrella North America",
      {| security_level := "GAMMA"; has_underground_facility := false;
         special_protocols := ["Remote Operations Protocol"];
         emergency_contact := "ext. NA-OPS" |});
    ("Umbrella South America",
      {| security_level := "GAMMA"; has_underground_facility := false;
         special_protocols := ["Remote Operations Protocol"];
         emergency_contact := "ext. SA-OPS" |}) ].

(** The generated fields that depend on the mappings; the Faker and
    [random] values (uuid, names, email, phone, skills, hire date,
    supervisor, salary, performance score) are not modelled. *)
Record Employee := {
  e_position : string;
  e_department : string;
  e_clearance_level : Z;
  e_location : string;
  e_location_security_level : string;
  e_has_facility_access : bool;
  e_emergency_contact_ext : string
}.

(** [random.choice(seq)]: the draw [i] picks [seq[i mod len(seq)]]; every
    element of a non-empty [seq] is reachable. *)
Definition choice {A} (l : list A) (i : nat) : option A :=
  nth_error l (Nat.modulo i (length l)).

(** One iteration of the loop of [generate_employee_data], for the draws
    of [random.choice] on the positions and on the allowed locations. *)
Definition make_employee (pos_draw loc_draw : nat) : option Employee :=
  match choice (map fst ROLE_DEPARTMENT_MAPPING) pos_draw with
  | None => None
  | Some position =>
      match assoc_str ROLE_DEPARTMENT_MAPPING position with
      | None => None
      | Some role_data =>
          let scl := role_scl role_data in
          match choice (allowed_locations role_data) loc_draw with
          | None => None
          | Some loc =>
              let location_data := assoc_str LOCATION_PROTOCOLS loc in
              Some {| e_position := position;
                      e_department := role_department role_data;
                      e_clearance_level := scl;
                      e_location := loc;
                      e_location_security_level :=
                        match location_data with
                        | Some p => security_level p | None => "UNKNOWN" end;
                      e_has_facility_access :=
                        match location_data with
                        | Some p => has_underground_facility p | None => false end
                        && (scl >=? 4);
                      e_emergency_contact_ext :=
                        match location_data with
                        | Some p => emergency_contact p | None => "ext. 0-HELP" end |}
          end
      end
  end.

(** [generate_employee_data]: one pair of draws per employee. *)
Fixpoint generate_employee_data (draws : list (nat * nat)) : option (list Employee) :=
  match draws with
  | [] => Some []
  | (i, j) :: rest =>
      match make_employee i j, generate_employee_data rest with
      | Some e, Some es => Some (e :: es)
      | _, _ => None
      end
  end.

(** ** Concrete inputs for the runs below *)

(** An employee as [generate_employee_data] produces it. *)
Definition demo_employee : EmployeeInfo :=
  {| emp_name := Some "Jill"; emp_lastname := Some "Valentine";
     emp_employee_id := Some "3f2c9a1e-77b4-4c1d-9f0e-2b8d6a5c4e10";
     emp_position := Some "Security Officer"; emp_department := Some "Security";
     emp_clearance_level := Some 4; emp_location := Some "Umbrella Europe";
     emp_location_security_level := Some "BETA"; emp_hire_date := Some "2021-05-17";
     emp_supervisor := Some "Albert Wesker"; emp_has_facility_access := Some false |}.

(** An assistant whose LLM call raises (quota, timeout, service error). *)
Definition demo_assistant_llm_down : Assistant :=
  {| system_prompt := "You are the onboarding assistant.";
     llm := fun _ _ _ => Err "RateLimitError";
     vector_store := None;
     employee_information := demo_employee;
     session_id := "default";
     retrieval_score_threshold := (1 # 2)%Q |}.

(** [str.format] on a template without placeholders returns it unchanged. *)
Definition format_no_placeholders (template : string) (_ : list (string * string))
  : Result string := Ok template.

Definition demo_hash (s : string) : Z := Z.of_nat (String.length s).

Definition empty_world : World := {| history := []; trace := []; db_faults := [] |}.

(** An assistant whose store returns one document and whose LLM answers. *)
Definition demo_assistant_online : Assistant :=
  {| system_prompt := "You are the onboarding assistant.";
     llm := fun _ _ _ => Ok "The cafeteria is on level 2.";
     vector_store := Some (fun _ _ _ =>
       Ok [{| page_content := "Cafeteria hours: 7-19."; doc_source := Some "handbook.pdf" |}]);
     employee_information := demo_employee;
     session_id := "default";
     retrieval_score_threshold := (1 # 2)%Q |}.

(** The prefix shared by every clearance denial, up to the point where it
    differs from the other denial texts. *)
Definition scl_denial_prefix : string :=
  nl ++ "**TRANSMISSION START**" ++ nl ++ "---" ++ nl ++ "**SECURITY ALERT**: Access".

Definition is_digit (c : ascii) : bool :=
  Nat.leb 48 (nat_of_ascii c) && Nat.leb (nat_of_ascii c) 57.

Fixpoint all_digits (s : string) : bool :=
  match s with
  | EmptyString => true
  | String c rest => is_digit c && all_digits rest
  end.

Definition four_digits (s : string) : bool :=
  Nat.eqb (String.length s) 4 && all_digits s.

(** * Properties *)

(** ** Helper lemmas *)

Lemma prefix_app (p x : string) : String.prefix p (p ++ x) = true.
Proof.
  induction p as [|c p IH]; simpl; [destruct x; reflexivity|].
  destruct (ascii_dec c c) as [_|n]; [exact IH|congruence].
Qed.

Lemma first_match_none (kws : list string) (s : string) :
  (forall kw, In kw kws -> contains kw s = false) -> first_match kws s = None.
Proof.
  unfold first_match. induction kws as [|k kws IH]; intros H; simpl; [reflexivity|].
  rewrite (H k (or_introl eq_refl)). apply IH. intros kw Hin. apply H. now right.
Qed.

Lemma first_match_some_in (kws : list string) (s : string) (kw : string) :
  In kw kws -> contains kw s = true -> exists kw', first_match kws s = Some kw'.
Proof.
  intros Hin Hc. unfold first_match.
  destruct (find (fun kw0 => contains kw0 s) kws) as [kw'|] eqn:E; [eauto|].
  pose proof (find_none _ _ E kw Hin) as Hf. simpl in Hf. congruence.
Qed.

Lemma scl_denial_has_prefix (r s ref : string) :
  String.prefix scl_denial_prefix (format_scl_insufficient r s ref) = true.
Proof. vm_compute. reflexivity. Qed.

Lemma scl_denial_not_facility (r s ref : string) :
  format_scl_insufficient r s ref <> underground_facility_msg.
Proof.
  intros E. pose proof (scl_denial_has_prefix r s ref) as H. rewrite E in H.
  vm_compute in H. discriminate.
Qed.

Lemma scl_denial_not_confidential (r s ref : string) :
  format_scl_insufficient r s ref <> confidential_data_msg.
Proof.
  intros E. pose proof (scl_denial_has_prefix r s ref) as H. rewrite E in H.
  vm_compute in H. discriminate.
Qed.

Lemma assoc_facility_hq (loc : string) :
  match assoc_str LOCATION_PROTOCOLS loc with
  | Some p => has_underground_facility p | None => false end
  = String.eqb loc "Raccoon City HQ".
Proof.
  unfold LOCATION_PROTOCOLS; simpl.
  destruct (String.eqb loc "Raccoon City HQ"); [reflexivity|].
  repeat match goal with |- context [if ?c then _ else _] => destruct c end;
    reflexivity.
Qed.

Lemma make_employee_facility (i j : nat) (e : Employee) :
  make_employee i j = Some e ->
  e_has_facility_access e =
    String.eqb (e_location e) "Raccoon City HQ" && (e_clearance_level e >=? 4).
Proof.
  unfold make_employee.
  destruct (choice (map fst ROLE_DEPARTMENT_MAPPING) i) as [position|]; [|discriminate].
  destruct (assoc_str ROLE_DEPARTMENT_MAPPING position) as [rd|]; [|discriminate].
  destruct (choice (allowed_locations rd) j) as [loc|]; [|discriminate].
  intros H; injection H as <-; simpl.
  destruct (String.eqb loc "Raccoon City HQ"); [reflexivity|].
  repeat match goal with |- context [if ?c then _ else _] => destruct c end;
    reflexivity.
Qed.

(** ** C1: the confidential-field rule comes first *)

(** C1: for every actor, whatever its clearance level (5 included), its
    location and its facility access, a query whose lower-cased text contains
    a confidential keyword as a substring is denied with the confidential
    denial text, before the facility and the clearance-keyword rules. *)
Theorem check_confidential_denied (str_lower : string -> string)
  (str_hash : string -> Z) (g : Guard) (query kw : string) :
  In kw CONFIDENTIAL_KEYWORDS ->
  contains kw (str_lower query) = true ->
  check_query_permission str_lower str_hash g query
  = (false, confidential_data_msg).
Proof.
  intros Hin Hc. unfold check_query_permission.
  destruct (first_match_some_in _ _ _ Hin Hc) as [kw' ->]. reflexivity.
Qed.

Lemma check_confidential_denied_witness :
  In "salary" CONFIDENTIAL_KEYWORDS /\
  contains "salary" (ascii_lower "SALARY of the underground NEMESIS team") = true /\
  check_query_permission ascii_lower (fun s => Z.of_nat (String.length s))
    {| scl_level := 5; location := "Raccoon City HQ"; location_security := "ALPHA";
       has_facility_access := false |}
    "SALARY of the underground NEMESIS team"
  = (false, confidential_data_msg).
Proof.
  split; [simpl; tauto|]. split; [vm_compute; reflexivity|].
  apply (check_confidential_denied ascii_lower (fun s => Z.of_nat (String.length s))
           {| scl_level := 5; location := "Raccoon City HQ"; location_security := "ALPHA";
              has_facility_access := false |}
           "SALARY of the underground NEMESIS team" "salary").
  - simpl; tauto.
  - vm_compute; reflexivity.
Defined.

(** ** C5: the facility-locality rule *)

(** C5: let the lower-cased query contain a restricted-facility keyword and
    no confidential keyword. An actor without facility access is denied with
    the facility denial text, whatever its clearance; for an actor with
    facility access the result is the clearance-keyword rule's, which is
    never the facility denial. *)
Theorem check_facility_rule (str_lower : string -> string)
  (str_hash : string -> Z) (g : Guard) (query fkw : string) :
  In fkw FACILITY_KEYWORDS ->
  contains fkw (str_lower query) = true ->
  (forall kw, In kw CONFIDENTIAL_KEYWORDS -> contains kw (str_lower query) = false) ->
  (has_facility_access g = false ->
   check_query_permission str_lower str_hash g query = (false, underground_facility_msg)) /\
  (has_facility_access g = true ->
   check_query_permission str_lower str_hash g query
   = match first_match (restricted_keywords (permissions g)) (str_lower query) with
     | Some keyword => (false, generate_scl_denial str_hash g keyword)
     | None => (true, EmptyString)
     end /\
   check_query_permission str_lower str_hash g query <> (false, underground_facility_msg)).
Proof.
  intros Hin Hc Hconf.
  assert (Hany : any_in FACILITY_KEYWORDS (str_lower query) = true).
  { unfold any_in. apply existsb_exists. eauto. }
  unfold check_query_permission. rewrite (first_match_none _ _ Hconf), Hany.
  split.
  - intros ->. reflexivity.
  - intros ->. cbn [andb negb]. split; [reflexivity|].
    destruct (first_match _ _) as [k|].
    + intros E. exact (scl_denial_not_facility _ _ _ (f_equal snd E)).
    + discriminate.
Qed.

Lemma check_facility_rule_witness :
  check_query_permission ascii_lower (fun s => Z.of_nat (String.length s))
    {| scl_level := 4; location := "Umbrella Europe"; location_security := "BETA";
       has_facility_access := false |}
    "Tell me about the Underground facility" = (false, underground_facility_msg).
Proof.
  refine (proj1 (check_facility_rule ascii_lower (fun s => Z.of_nat (String.length s))
           {| scl_level := 4; location := "Umbrella Europe"; location_security := "BETA";
              has_facility_access := false |}
           "Tell me about the Underground facility" "underground" _ _ _) eq_refl).
  - simpl; tauto.
  - vm_compute; reflexivity.
  - intros kw Hkw. simpl in Hkw.
    repeat (destruct Hkw as [<-|Hkw]; [vm_compute; reflexivity|]). destruct Hkw.
Defined.

(** ** C8: retrieval breadth *)

Lemma level_cases (l : Z) : 1 <= l <= 5 -> l = 1 \/ l = 2 \/ l = 3 \/ l = 4 \/ l = 5.
Proof. lia. Qed.

(** C8: for actors of clearance levels 1 to 5, [get_retrieval_k] is
    non-decreasing in the level, and the breadths of levels 1..5 are
    exactly 2, 3, 4, 5 and 10. *)
Theorem get_retrieval_k_monotone (g1 g2 : Guard) :
  1 <= scl_level g1 -> scl_level g1 <= scl_level g2 -> scl_level g2 <= 5 ->
  get_retrieval_k g1 <= get_retrieval_k g2 /\
  map (fun l => get_retrieval_k {| scl_level := l; location := location g1;
                                   location_security := location_security g1;
                                   has_facility_access := has_facility_access g1 |})
      [1; 2; 3; 4; 5] = [2; 3; 4; 5; 10].
Proof.
  intros H1 H12 H2. split; [|reflexivity].
  unfold get_retrieval_k, permissions.
  destruct (level_cases (scl_level g1)) as [E1|[E1|[E1|[E1|E1]]]]; [lia|..];
  destruct (level_cases (scl_level g2)) as [E2|[E2|[E2|[E2|E2]]]]; try lia;
  rewrite E1, E2 in *; vm_compute; try lia; discriminate.
Qed.

Lemma get_retrieval_k_monotone_witness :
  get_retrieval_k {| scl_level := 2; location := "Umbrella Europe";
                     location_security := "BETA"; has_facility_access := false |}
  <= get_retrieval_k {| scl_level := 5; location := "Raccoon City HQ";
                        location_security := "ALPHA"; has_facility_access := true |}.
Proof.
  refine (proj1 (get_retrieval_k_monotone
    {| scl_level := 2; location := "Umbrella Europe";
       location_security := "BETA"; has_facility_access := false |}
    {| scl_level := 5; location := "Raccoon City HQ";
       location_security := "ALPHA"; has_facility_access := true |} _ _ _));
  simpl; lia.
Defined.

(** ** C9: the forbidden-keyword sets shrink as the level rises *)

(** C9: for levels [1 <= l1 < l2 <= 5] the forbidden keywords of [l2] are
    among those of [l1], level 5 forbids no keyword, and so the
    clearance-keyword rule never denies a level-5 actor: its outcome is the
    confidential denial, the facility denial or acceptance. *)
Theorem restricted_keywords_shrink (l1 l2 : Z) :
  1 <= l1 -> l1 < l2 -> l2 <= 5 ->
  incl (restricted_keywords (permissions_of l2)) (restricted_keywords (permissions_of l1)) /\
  restricted_keywords (permissions_of 5) = [] /\
  (forall (str_lower : string -> string) (str_hash : string -> Z) (g : Guard) (q : string),
     scl_level g = 5 ->
     check_query_permission str_lower str_hash g q = (false, confidential_data_msg) \/
     check_query_permission str_lower str_hash g q = (false, underground_facility_msg) \/
     check_query_permission str_lower str_hash g q = (true, EmptyString)).
Proof.
  intros H1 H12 H2. split; [|split; [reflexivity|]].
  - destruct (level_cases l1) as [ -> | [ -> | [ -> | [ -> | -> ]]]]; [lia|..];
    destruct (level_cases l2) as [ -> | [ -> | [ -> | [ -> | -> ]]]]; try lia;
    intros x; vm_compute; tauto.
  - intros str_lower str_hash g q Hg. unfold check_query_permission, permissions.
    rewrite Hg.
    destruct (first_match CONFIDENTIAL_KEYWORDS _); [now left|].
    destruct (any_in FACILITY_KEYWORDS _ && negb _); [now right; left|].
    now right; right.
Qed.

Lemma restricted_keywords_shrink_witness :
  incl (restricted_keywords (permissions_of 4)) (restricted_keywords (permissions_of 2)).
Proof. refine (proj1 (restricted_keywords_shrink 2 4 _ _ _)); lia. Defined.

(** ** C10: facility access of generated employees *)

(** C10: every employee produced by [generate_employee_data] has facility
    access exactly when it is located at Raccoon City HQ with clearance
    level at least 4. *)
Theorem generate_employee_facility_access (draws : list (nat * nat))
  (emps : list Employee) (e : Employee) :
  generate_employee_data draws = Some emps -> In e emps ->
  (e_has_facility_access e = true <->
   e_location e = "Raccoon City HQ" /\ e_clearance_level e >= 4).
Proof.
  revert emps. induction draws as [|[i j] rest IH]; intros emps Hgen Hin; simpl in Hgen.
  - injection Hgen as <-. destruct Hin.
  - destruct (make_employee i j) as [e0|] eqn:He0; [|discriminate].
    destruct (generate_employee_data rest) as [es|]; [|discriminate].
    injection Hgen as <-. destruct Hin as [<-|Hin]; [|exact (IH es eq_refl Hin)].
    rewrite (make_employee_facility _ _ _ He0), andb_true_iff, String.eqb_eq, Z.geb_le.
    split; intros [A B]; split; auto; lia.
Qed.

Lemma generate_employee_facility_access_witness :
  e_has_facility_access
    {| e_position := "Senior Research Lead"; e_department := "R&D";
       e_clearance_level := 4; e_location := "Raccoon City HQ";
       e_location_security_level := "ALPHA"; e_has_facility_access := true;
       e_emergency_contact_ext := "ext. 4-UMBRELLA" |} = true
  <-> "Raccoon City HQ" = "Raccoon City HQ" /\ 4 >= 4.
Proof.
  apply (generate_employee_facility_access [(1%nat, 0%nat)]
    [{| e_position := "Senior Research Lead"; e_department := "R&D";
        e_clearance_level := 4; e_location := "Raccoon City HQ";
        e_location_security_level := "ALPHA"; e_has_facility_access := true;
        e_emergency_contact_ext := "ext. 4-UMBRELLA" |}]).
  - vm_compute. reflexivity.
  - simpl. left. reflexivity.
Defined.

(** ** C2: the clearance-keyword rule *)

Lemma substring_prefix_app (r x : string) : substring 0 (String.length r) (r ++ x) = r.
Proof. induction r as [|c r IH]; simpl; [now destruct x|]. now rewrite IH. Qed.

Lemma substring_skip (p x : string) (n m : nat) :
  substring (String.length p + n) m (p ++ x) = substring n m x.
Proof. induction p as [|c p IH]; simpl; [reflexivity|]. exact IH. Qed.

(** The reported required level sits at a fixed offset of the clearance
    denial text. *)
Lemma format_scl_required_at (r s ref : string) :
  substring 153 (String.length r) (format_scl_insufficient r s ref) = r.
Proof.
  unfold format_scl_insufficient.
  match goal with |- substring _ _ (?p ++ _) = _ =>
    change 153%nat with (String.length p + 0)%nat end.
  rewrite substring_skip. apply substring_prefix_app.
Qed.

(** C2 as stated, with "that keyword" any forbidden keyword of the actor's
    level occurring in the query, fails: at level 1 the query
    "secret outbreak" contains "secret" (first allowed at level 2), but the
    loop stops at "outbreak", which comes first in level 1's list, and the
    denial reports level 3. *)
Lemma check_clearance_required_level_cex :
  ~ (forall (str_lower : string -> string) (str_hash : string -> Z) (g : Guard)
            (q kw : string),
       1 <= scl_level g <= 5 ->
       In kw (restricted_keywords (permissions g)) ->
       contains kw (str_lower q) = true ->
       (forall c, In c CONFIDENTIAL_KEYWORDS -> contains c (str_lower q) = false) ->
       any_in FACILITY_KEYWORDS (str_lower q) && negb (has_facility_access g) = false ->
       exists ref, check_query_permission str_lower str_hash g q
         = (false, format_scl_insufficient (Z_to_string (required_scl kw))
                                           (Z_to_string (scl_level g)) ref)).
Proof.
  intros H.
  set (g := {| scl_level := 1; location := "Umbrella Europe"; location_security := "BETA";
               has_facility_access := false |}).
  destruct (H ascii_lower (fun s => Z.of_nat (String.length s)) g
              "secret outbreak" "secret") as [ref E].
  - simpl; lia.
  - simpl; tauto.
  - vm_compute; reflexivity.
  - intros c Hc. simpl in Hc.
    repeat (destruct Hc as [<-|Hc]; [vm_compute; reflexivity|]). destruct Hc.
  - vm_compute; reflexivity.
  - assert (Hout : check_query_permission ascii_lower (fun s => Z.of_nat (String.length s))
                     g "secret outbreak"
                   = (false, format_scl_insufficient "3" "1"
                               ("SCL-" ++ generate_ref_id (fun s => Z.of_nat (String.length s))
                                             "outbreak"))).
    { vm_compute; reflexivity. }
    rewrite Hout in E. apply (f_equal snd) in E. simpl in E.
    apply (f_equal (substring 153 1)) in E.
    rewrite (format_scl_required_at "3") in E.
    change 1%nat with (String.length (Z_to_string (required_scl "secret"))) in E at 2.
    rewrite format_scl_required_at in E. vm_compute in E. discriminate.
Qed.

Ltac not_in_strings :=
  simpl; let Hn := fresh "Hn" in
  intros Hn; repeat (destruct Hn as [Hn|Hn]; [discriminate Hn|]); exact Hn.

(** A keyword forbidden at level [L] is reported with a level above [L],
    which is the first level, scanning upward, that allows it. *)
Lemma required_scl_spec (L : Z) (kw : string) :
  1 <= L <= 5 -> In kw (restricted_keywords (permissions_of L)) ->
  L < required_scl kw /\
  ~ In kw (restricted_keywords (permissions_of (required_scl kw))) /\
  (forall l, 1 <= l < required_scl kw -> In kw (restricted_keywords (permissions_of l))).
Proof.
  intros HL Hin.
  destruct (level_cases L HL) as [ -> | [ -> | [ -> | [ -> | -> ]]]];
  simpl in Hin; repeat destruct Hin as [<-|Hin]; try destruct Hin;
  match goal with |- context [required_scl ?k] =>
    let r := eval vm_compute in (required_scl k) in change (required_scl k) with r end;
  (split; [lia|split; [not_in_strings|]]);
  intros l Hl; destruct (level_cases l) as [ -> | [ -> | [ -> | [ -> | -> ]]]];
  try lia; simpl; tauto.
Qed.

(** C2 (amended): for an actor of level [L] in 1..5 and a query that
    triggers neither the confidential nor the facility rule but contains a
    keyword forbidden at [L], [check_query_permission] returns the clearance
    denial for the first keyword of [L]'s list, in list order, that occurs
    in the lower-cased query; the level it reports is the first level,
    scanning upward from 1, whose forbidden keywords exclude that keyword,
    and it is above [L]. *)
Theorem check_clearance_first_keyword (str_lower : string -> string)
  (str_hash : string -> Z) (g : Guard) (q kw : string) :
  1 <= scl_level g <= 5 ->
  In kw (restricted_keywords (permissions g)) ->
  contains kw (str_lower q) = true ->
  (forall c, In c CONFIDENTIAL_KEYWORDS -> contains c (str_lower q) = false) ->
  any_in FACILITY_KEYWORDS (str_lower q) && negb (has_facility_access g) = false ->
  exists kw',
    first_match (restricted_keywords (permissions g)) (str_lower q) = Some kw' /\
    contains kw' (str_lower q) = true /\
    check_query_permission str_lower str_hash g q
      = (false, generate_scl_denial str_hash g kw') /\
    scl_level g < required_scl kw' /\
    ~ In kw' (restricted_keywords (permissions_of (required_scl kw'))) /\
    (forall l, 1 <= l < required_scl kw' -> In kw' (restricted_keywords (permissions_of l))).
Proof.
  intros HL Hin Hc Hconf Hfac.
  destruct (first_match_some_in _ _ _ Hin Hc) as [kw' Hkw'].
  pose proof (find_some _ _ Hkw') as [Hin' Hc'].
  exists kw'. split; [exact Hkw'|]. split; [exact Hc'|]. split.
  - unfold check_query_permission. rewrite (first_match_none _ _ Hconf), Hfac, Hkw'.
    reflexivity.
  - exact (required_scl_spec (scl_level g) kw' HL Hin').
Qed.

Lemma check_clearance_first_keyword_witness :
  exists kw',
    first_match (restricted_keywords (permissions_of 1)) (ascii_lower "Secret OUTBREAK")
      = Some kw' /\
    contains kw' (ascii_lower "Secret OUTBREAK") = true /\
    check_query_permission ascii_lower (fun s => Z.of_nat (String.length s))
      {| scl_level := 1; location := "Umbrella Europe"; location_security := "BETA";
         has_facility_access := false |} "Secret OUTBREAK"
      = (false, generate_scl_denial (fun s => Z.of_nat (String.length s))
                  {| scl_level := 1; location := "Umbrella Europe";
                     location_security := "BETA"; has_facility_access := false |} kw') /\
    1 < required_scl kw' /\
    ~ In kw' (restricted_keywords (permissions_of (required_scl kw'))) /\
    (forall l, 1 <= l < required_scl kw' -> In kw' (restricted_keywords (permissions_of l))).
Proof.
  apply (check_clearance_first_keyword ascii_lower (fun s => Z.of_nat (String.length s))
    {| scl_level := 1; location := "Umbrella Europe"; location_security := "BETA";
       has_facility_access := false |} "Secret OUTBREAK" "secret").
  - simpl; lia.
  - simpl; tauto.
  - vm_compute; reflexivity.
  - intros c Hc. simpl in Hc.
    repeat (destruct Hc as [<-|Hc]; [vm_compute; reflexivity|]). destruct Hc.
  - vm_compute; reflexivity.
Defined.

(** ** C4: reference ids of denials *)

Lemma format_04d_range_checked :
  forallb (fun n => four_digits (format_04d (Z.of_nat n))) (seq 0 (Z.to_nat 10000)) = true.
Proof. vm_compute. reflexivity. Qed.

Lemma format_04d_four_digits (z : Z) : 0 <= z < 10000 -> four_digits (format_04d z) = true.
Proof.
  intros Hz. rewrite <- (Z2Nat.id z) by lia.
  apply (proj1 (forallb_forall _ _) format_04d_range_checked).
  apply in_seq. split; [lia|]. rewrite Nat.add_0_l.
  apply Z2Nat.inj_lt; lia.
Qed.

Lemma generate_ref_id_four_digits (str_hash : string -> Z) (seed : string) :
  four_digits (generate_ref_id str_hash seed) = true.
Proof. apply format_04d_four_digits. apply Z.mod_pos_bound. lia. Qed.

(** C4 as stated fails: the confidential denial (like the facility denial)
    is a fixed text with no reference id. *)
Lemma denial_ref_id_cex :
  ~ (forall (str_lower : string -> string) (str_hash : string -> Z) (g : Guard) (q : string),
       fst (check_query_permission str_lower str_hash g q) = false ->
       contains "(Ref: " (snd (check_query_permission str_lower str_hash g q)) = true).
Proof.
  intros H.
  specialize (H ascii_lower (fun s => Z.of_nat (String.length s))
                {| scl_level := 1; location := "Umbrella Europe"; location_security := "BETA";
                   has_facility_access := false |} "what is the salary policy").
  vm_compute in H. discriminate (H eq_refl).
Qed.

(** C4 (amended): a denial is either the confidential text or the facility
    text, both fixed and without a reference id, or the clearance denial for
    a keyword occurring in the lower-cased query, whose reference id is
    ["SCL-"] followed by [hash(keyword) % 10000] zero-padded to 4 decimal
    digits. *)
Theorem denial_ref_id (str_lower : string -> string) (str_hash : string -> Z)
  (g : Guard) (q msg : string) :
  check_query_permission str_lower str_hash g q = (false, msg) ->
  ((msg = confidential_data_msg \/ msg = underground_facility_msg) /\
   contains "(Ref: " msg = false) \/
  (exists kw, contains kw (str_lower q) = true /\
     msg = format_scl_insufficient (Z_to_string (required_scl kw))
             (Z_to_string (scl_level g)) ("SCL-" ++ generate_ref_id str_hash kw) /\
     four_digits (generate_ref_id str_hash kw) = true).
Proof.
  unfold check_query_permission.
  destruct (first_match CONFIDENTIAL_KEYWORDS _).
  { intros E; injection E as <-. left. split; [now left|]. vm_compute; reflexivity. }
  destruct (any_in FACILITY_KEYWORDS _ && negb _).
  { intros E; injection E as <-. left. split; [now right|]. vm_compute; reflexivity. }
  destruct (first_match (restricted_keywords (permissions g)) (str_lower q)) as [kw|] eqn:Ekw;
    [|discriminate].
  intros E; injection E as <-. right. exists kw.
  pose proof (find_some _ _ Ekw) as [_ Hc].
  split; [exact Hc|]. split; [reflexivity|]. apply generate_ref_id_four_digits.
Qed.

Lemma denial_ref_id_witness :
  ((generate_scl_denial (fun s => Z.of_nat (String.length s))
      {| scl_level := 2; location := "Umbrella Asia"; location_security := "BETA";
         has_facility_access := false |} "tyrant" = confidential_data_msg \/
    generate_scl_denial (fun s => Z.of_nat (String.length s))
      {| scl_level := 2; location := "Umbrella Asia"; location_security := "BETA";
         has_facility_access := false |} "tyrant" = underground_facility_msg) /\
   contains "(Ref: " (generate_scl_denial (fun s => Z.of_nat (String.length s))
      {| scl_level := 2; location := "Umbrella Asia"; location_security := "BETA";
         has_facility_access := false |} "tyrant") = false) \/
  (exists kw, contains kw (ascii_lower "Tyrant specs") = true /\
     generate_scl_denial (fun s => Z.of_nat (String.length s))
      {| scl_level := 2; location := "Umbrella Asia"; location_security := "BETA";
         has_facility_access := false |} "tyrant"
     = format_scl_insufficient (Z_to_string (required_scl kw)) (Z_to_string 2)
         ("SCL-" ++ generate_ref_id (fun s => Z.of_nat (String.length s)) kw) /\
     four_digits (generate_ref_id (fun s => Z.of_nat (String.length s)) kw) = true).
Proof.
  apply (denial_ref_id ascii_lower (fun s => Z.of_nat (String.length s))
    {| scl_level := 2; location := "Umbrella Asia"; location_security := "BETA";
       has_facility_access := false |} "Tyrant specs").
  vm_compute. reflexivity.
Defined.

(** ** C7: the retrieval adapter *)

(** C7 as stated fails: with no vector store configured, retrieval returns
    "No policy information available." and not the "temporarily
    unavailable" text. *)
Lemma retrieve_no_store_cex :
  ~ (forall (a : Assistant) (q : string) (w : World),
       vector_store a = None -> fst (retrieve_policy_information a q w) = Ok unavailable_msg).
Proof.
  intros H. specialize (H demo_assistant_llm_down "dress code" empty_world eq_refl).
  vm_compute in H. discriminate H.
Qed.

(** C7 (amended): retrieval never raises. With no vector store it returns
    the non-empty "No policy information available."; when the store,
    queried with the actor's breadth and the score threshold, returns no
    passage it returns the non-empty "no relevant information" text; when
    the store raises it returns the "temporarily unavailable" text. *)
Theorem retrieve_policy_information_total (a : Assistant) (q : string) (w : World) :
  (exists s, fst (retrieve_policy_information a q w) = Ok s) /\
  (vector_store a = None ->
   fst (retrieve_policy_information a q w) = Ok no_store_msg) /\
  (forall store, vector_store a = Some store ->
     (store q (get_retrieval_k (security a)) (retrieval_score_threshold a) = Ok [] ->
      fst (retrieve_policy_information a q w) = Ok no_docs_msg) /\
     (forall e, store q (get_retrieval_k (security a)) (retrieval_score_threshold a) = Err e ->
      fst (retrieve_policy_information a q w) = Ok unavailable_msg)) /\
  no_store_msg <> EmptyString /\ no_docs_msg <> EmptyString.
Proof.
  unfold retrieve_policy_information.
  split; [|split; [|split; [|split; discriminate]]].
  - destruct (vector_store a) as [store|]; [|eexists; reflexivity].
    unfold bind, emit; simpl.
    destruct (store q _ _) as [[|d ds]|e]; eexists; reflexivity.
  - intros ->. reflexivity.
  - intros store ->. unfold bind, emit; simpl. split.
    + intros ->. reflexivity.
    + intros e ->. reflexivity.
Qed.

(** ** C6: a denied query short-circuits the pipeline *)

(** C6: the claim as stated fails when the store fails: if SQLite raises on the
    first write, the query is not stored and the turn persists one message. *)
Lemma get_response_denied_two_rows_cex :
  ~ (forall (str_lower : string -> string) (str_hash : string -> Z)
            (str_format : string -> list (string * string) -> Result string)
            (a : Assistant) (q msg : string) (w : World),
       check_query_permission str_lower str_hash (security a) q = (false, msg) ->
       history (snd (get_response str_lower str_hash str_format a q w)) =
       (history w ++
          [{| row_session := session_id a; row_role := "human"; row_content := q |};
           {| row_session := session_id a; row_role := "ai"; row_content := msg |}])%list).
Proof.
  intros H.
  specialize (H ascii_lower demo_hash format_no_placeholders demo_assistant_llm_down
                "What is the SALARY band for SCL-4?" confidential_data_msg
                {| history := []; trace := []; db_faults := [true] |}).
  assert (Hc : check_query_permission ascii_lower demo_hash (security demo_assistant_llm_down)
                 "What is the SALARY band for SCL-4?" = (false, confidential_data_msg))
    by (vm_compute; reflexivity).
  specialize (H Hc). vm_compute in H. discriminate H.
Qed.

(** C6 (amended): when [check_query_permission] denies the query,
    [get_response] returns the denial text and calls no collaborator (no
    retrieval, no [system_prompt.format], no LLM). It writes the query as
    "human", then the denial as "ai"; each write is stored unless SQLite
    raises on it, in which case it is logged and skipped. With a working
    store both rows are appended, in that order. *)
Theorem get_response_denied (str_lower : string -> string) (str_hash : string -> Z)
  (str_format : string -> list (string * string) -> Result string)
  (a : Assistant) (q msg : string) (w : World) :
  check_query_permission str_lower str_hash (security a) q = (false, msg) ->
  get_response str_lower str_hash str_format a q w =
    (Ok msg,
     {| history := (history w ++
          (if nth 0 (db_faults w) false then []
           else [{| row_session := session_id a; row_role := "human"; row_content := q |}]) ++
          (if nth 1 (db_faults w) false then []
           else [{| row_session := session_id a; row_role := "ai"; row_content := msg |}]))%list;
        trace := trace w;
        db_faults := skipn 2 (db_faults w) |}).
Proof.
  intros H. unfold get_response, get_response_body. rewrite H.
  destruct w as [h t f].
  unfold try_except, bind, add_message, db_call, ret.
  destruct f as [|[] [|[] f]]; simpl; rewrite ?app_nil_r, <- ?app_assoc; reflexivity.
Qed.

Lemma get_response_denied_witness :
  check_query_permission ascii_lower demo_hash (security demo_assistant_llm_down)
    "What is the SALARY band for SCL-4?" = (false, confidential_data_msg) /\
  get_response ascii_lower demo_hash format_no_placeholders demo_assistant_llm_down
    "What is the SALARY band for SCL-4?" empty_world =
    (Ok confidential_data_msg,
     {| history := ([] ++
          [{| row_session := "default"; row_role := "human";
              row_content := "What is the SALARY band for SCL-4?" |}] ++
          [{| row_session := "default"; row_role := "ai";
              row_content := confidential_data_msg |}])%list;
        trace := []; db_faults := [] |}).
Proof.
  assert (Hc : check_query_permission ascii_lower demo_hash (security demo_assistant_llm_down)
                 "What is the SALARY band for SCL-4?" = (false, confidential_data_msg))
    by (vm_compute; reflexivity).
  split; [exact Hc|].
  exact (get_response_denied ascii_lower demo_hash format_no_placeholders
           demo_assistant_llm_down "What is the SALARY band for SCL-4?"
           confidential_data_msg empty_world Hc).
Defined.

(** ** The message store under storage errors *)

Lemma add_message_spec (s role content : string) (w : World) :
  add_message s role content w =
  (Ok tt, {| history := (history w ++
               if nth 0 (db_faults w) false then []
               else [{| row_session := s; row_role := role; row_content := content |}])%list;
             trace := trace w; db_faults := tl (db_faults w) |}).
Proof. destruct w as [h t [|[] f]]; simpl; rewrite ?app_nil_r; reflexivity. Qed.

Lemma get_langchain_messages_spec (s : string) (w : World) :
  get_langchain_messages s w =
  (Ok (flat_map to_langchain
         (if nth 0 (db_faults w) false then [] else session_messages s (history w))),
   {| history := history w; trace := trace w; db_faults := tl (db_faults w) |}).
Proof. destruct w as [h t [|[] f]]; reflexivity. Qed.

(** ** C3: an exception of the pipeline drops the turn *)

Lemma retrieve_policy_information_ok (a : Assistant) (q : string) (w : World) :
  exists s w1, retrieve_policy_information a q w = (Ok s, w1) /\ history w1 = history w.
Proof.
  unfold retrieve_policy_information.
  destruct (vector_store a) as [store|]; [|do 2 eexists; split; reflexivity].
  unfold bind, emit.
  destruct (store q _ _) as [[|d ds]|e]; do 2 eexists; split; reflexivity.
Qed.

(** Before its last two writes the body of [get_response] writes nothing, so
    an exception leaves the history as it was. *)
Lemma get_response_body_err_history (str_lower : string -> string)
  (str_hash : string -> Z) (str_format : string -> list (string * string) -> Result string)
  (a : Assistant) (q : string) (w w' : World) (e : string) :
  get_response_body str_lower str_hash str_format a q w = (Err e, w') ->
  history w' = history w.
Proof.
  unfold get_response_body.
  destruct (check_query_permission str_lower str_hash (security a) q) as [[|] msg].
  - cbn [negb]. unfold bind at 1.
    destruct (retrieve_policy_information_ok a q w) as (s & w1 & Er & Hw1). rewrite Er.
    unfold bind at 1, emit.
    unfold bind at 1, lift.
    destruct (str_format _ _) as [sp|e1].
    + unfold bind at 1. rewrite get_langchain_messages_spec.
      unfold bind at 1, emit.
      unfold bind at 1, lift.
      destruct (llm a _ _ _) as [resp|e2].
      * unfold bind. rewrite add_message_spec. simpl. rewrite add_message_spec. discriminate.
      * intros E. injection E as _ <-. exact Hw1.
    + intros E. injection E as _ <-. exact Hw1.
  - cbn [negb]. unfold bind. rewrite add_message_spec. simpl.
    rewrite add_message_spec. discriminate.
Qed.

(** [get_response] never lets an exception out. When the body of its [try]
    block raises (in [system_prompt.format], in the LLM chain, or anywhere
    else), it returns the fixed degraded-system envelope, and its [except]
    branch writes nothing: the history is left as it was, so the query of
    that turn is not persisted, even with a working store. *)
Theorem get_response_absorbs_errors (str_lower : string -> string)
  (str_hash : string -> Z) (str_format : string -> list (string * string) -> Result string)
  (a : Assistant) (q : string) (w : World) :
  (exists r w'', get_response str_lower str_hash str_format a q w = (Ok r, w'')) /\
  (forall e w', get_response_body str_lower str_hash str_format a q w = (Err e, w') ->
     get_response str_lower str_hash str_format a q w = (Ok error_response, w') /\
     history w' = history w).
Proof.
  split.
  - unfold get_response, try_except.
    destruct (get_response_body str_lower str_hash str_format a q w) as [[r|e] w'];
      do 2 eexists; reflexivity.
  - intros e w' Hb. split.
    + unfold get_response, try_except. rewrite Hb. reflexivity.
    + exact (get_response_body_err_history _ _ _ _ _ _ _ _ Hb).
Qed.

(** C3: with a working store, when the LLM call raises on an allowed query,
    the degraded envelope ("Your inquiry has been queued for processing")
    is returned but the query is not persisted. *)
Lemma get_response_error_drops_query_cex :
  fst (get_response ascii_lower demo_hash format_no_placeholders demo_assistant_llm_down
         "Where is the cafeteria?" empty_world) = Ok error_response /\
  ~ In {| row_session := "default"; row_role := "human";
          row_content := "Where is the cafeteria?" |}
       (history (snd (get_response ascii_lower demo_hash format_no_placeholders
                        demo_assistant_llm_down "Where is the cafeteria?" empty_world))).
Proof.
  split; [vm_compute; reflexivity|].
  vm_compute. intros [].
Qed.

(** * Further properties of the code *)

(** ** What a turn of [get_response] persists and calls *)

Lemma retrieve_policy_information_trace (a : Assistant) (q : string) (w : World) :
  exists s w1, retrieve_policy_information a q w = (Ok s, w1) /\
    history w1 = history w /\ db_faults w1 = db_faults w /\
    trace w1 = (trace w ++ match vector_store a with
                           | None => []
                           | Some _ => [EvRetrieve q (get_retrieval_k (security a))]
                           end)%list.
Proof.
  unfold retrieve_policy_information.
  destruct (vector_store a) as [store|];
    [|do 2 eexists; split; [reflexivity|split; [reflexivity|split; [reflexivity|]]];
      now rewrite app_nil_r].
  unfold bind, emit.
  destruct (store q _ _) as [[|d ds]|e]; do 2 eexists;
    (split; [reflexivity|split; [reflexivity|split; reflexivity]]).
Qed.

(** A store none of whose coming calls fails. *)
Lemma no_fault_nth (l : list bool) (n : nat) :
  forallb negb l = true -> nth n l false = false.
Proof.
  revert n. induction l as [|b l IH]; intros n H; destruct n; simpl in *; auto;
    apply andb_true_iff in H as [H1 H2]; [now destruct b|auto].
Qed.

Lemma no_fault_tl (l : list bool) : forallb negb l = true -> forallb negb (tl l) = true.
Proof. destruct l; simpl; [auto|]. intros H. apply andb_true_iff in H. tauto. Qed.

(** When the [try] block completes, the turn's only writes are the query as
    "human", then the returned answer as "ai", each skipped if SQLite raises
    on it; with a store that does not fail both rows are appended. *)
Lemma get_response_body_ok_history (str_lower : string -> string)
  (str_hash : string -> Z) (str_format : string -> list (string * string) -> Result string)
  (a : Assistant) (q r : string) (w w' : World) :
  get_response_body str_lower str_hash str_format a q w = (Ok r, w') ->
  exists f1 f2 : bool,
    history w' = (history w ++
      (if f1 then [] else [{| row_session := session_id a; row_role := "human"; row_content := q |}]) ++
      (if f2 then [] else [{| row_session := session_id a; row_role := "ai"; row_content := r |}]))%list /\
    (forallb negb (db_faults w) = true -> f1 = false /\ f2 = false).
Proof.
  unfold get_response_body.
  destruct (check_query_permission str_lower str_hash (security a) q) as [[|] msg].
  - cbn [negb]. unfold bind at 1.
    destruct (retrieve_policy_information_trace a q w) as (s & w1 & Er & Hh1 & Hf1 & _).
    rewrite Er.
    unfold bind at 1, emit.
    unfold bind at 1, lift.
    destruct (str_format _ _) as [sp|e1]; [|discriminate].
    unfold bind at 1. rewrite get_langchain_messages_spec.
    unfold bind at 1, emit.
    unfold bind at 1, lift.
    destruct (llm a _ _ _) as [resp|e2]; [|discriminate].
    unfold bind. rewrite add_message_spec. simpl. rewrite add_message_spec. simpl.
    intros E. injection E as <- <-. simpl.
    exists (nth 0 (tl (db_faults w1)) false), (nth 0 (tl (tl (db_faults w1))) false).
    split; [rewrite Hh1, <- app_assoc; reflexivity|].
    rewrite Hf1. intros H.
    split; apply no_fault_nth; repeat apply no_fault_tl; exact H.
  - cbn [negb]. unfold bind. rewrite add_message_spec. simpl. rewrite add_message_spec.
    simpl. intros E. injection E as <- <-. simpl.
    exists (nth 0 (db_faults w) false), (nth 0 (tl (db_faults w)) false).
    split; [rewrite <- app_assoc; reflexivity|].
    intros H. split; apply no_fault_nth; repeat apply no_fault_tl; exact H.
Qed.


(** When a query passes the guardrails and the turn completes, the
    collaborators are called in this order: the store (only when one is
    configured, with [k] from the actor's clearance), then
    [system_prompt.format] on the employee block and the retrieved text,
    then the LLM. The LLM gets the formatted prompt followed by the
    clearance instruction, and the chat history [get_langchain_messages]
    reads before this turn's writes (so without the current query); the
    answer returned is the LLM's output in the transmission format. *)
Theorem get_response_allowed_calls (str_lower : string -> string)
  (str_hash : string -> Z) (str_format : string -> list (string * string) -> Result string)
  (a : Assistant) (q r : string) (w w' : World) :
  fst (check_query_permission str_lower str_hash (security a) q) = true ->
  get_response_body str_lower str_hash str_format a q w = (Ok r, w') ->
  exists pol sp hist resp,
    fst (retrieve_policy_information a q w) = Ok pol /\
    str_format (system_prompt a)
      [("employee_information", format_employee_information a);
       ("retrieved_policy_information", pol)] = Ok sp /\
    fst (get_langchain_messages (session_id a) w) = Ok hist /\
    llm a (sp ++ nl ++ get_dynamic_system_instruction (security a)) hist q = Ok resp /\
    r = format_transmission_response a resp /\
    trace w' = (trace w ++
      match vector_store a with
      | None => []
      | Some _ => [EvRetrieve q (get_retrieval_k (security a))]
      end ++
      [EvCompose (system_prompt a);
       EvGenerate (sp ++ nl ++ get_dynamic_system_instruction (security a)) hist q])%list.
Proof.
  unfold get_response_body.
  destruct (check_query_permission str_lower str_hash (security a) q) as [[|] msg];
    simpl fst; [intros _|discriminate].
  cbn [negb]. unfold bind at 1.
  destruct (retrieve_policy_information_trace a q w) as (s & w1 & Er & Hh1 & Hf1 & Ht1).
  rewrite Er.
  unfold bind at 1, emit.
  unfold bind at 1, lift.
  destruct (str_format _ _) as [sp|e1] eqn:Hsp; [|discriminate].
  unfold bind at 1. rewrite get_langchain_messages_spec.
  unfold bind at 1, emit.
  unfold bind at 1, lift.
  cbn [history db_faults trace].
  destruct (llm a _ _ _) as [resp|e2] eqn:Hllm; [|discriminate].
  unfold bind. rewrite add_message_spec. simpl. rewrite add_message_spec. simpl.
  intros E. injection E as <- <-.
  exists s, sp. eexists. exists resp.
  rewrite Hh1, Hf1 in Hllm. rewrite Hh1, Hf1, Ht1.
  split; [reflexivity|].
  split; [exact Hsp|].
  split; [rewrite get_langchain_messages_spec; reflexivity|].
  split; [exact Hllm|].
  split; [reflexivity|].
  rewrite <- !app_assoc. reflexivity.
Qed.

Lemma get_response_allowed_calls_witness :
  exists r w',
    fst (check_query_permission ascii_lower demo_hash (security demo_assistant_online)
           "Where is the cafeteria?") = true /\
    get_response_body ascii_lower demo_hash format_no_placeholders demo_assistant_online
      "Where is the cafeteria?" empty_world = (Ok r, w') /\
    exists pol sp hist resp,
      fst (retrieve_policy_information demo_assistant_online "Where is the cafeteria?"
             empty_world) = Ok pol /\
      format_no_placeholders (system_prompt demo_assistant_online)
        [("employee_information", format_employee_information demo_assistant_online);
         ("retrieved_policy_information", pol)] = Ok sp /\
      fst (get_langchain_messages (session_id demo_assistant_online) empty_world) = Ok hist /\
      llm demo_assistant_online
        (sp ++ nl ++ get_dynamic_system_instruction (security demo_assistant_online))
        hist "Where is the cafeteria?" = Ok resp /\
      r = format_transmission_response demo_assistant_online resp /\
      trace w' =
      [EvRetrieve "Where is the cafeteria?" 5;
       EvCompose "You are the onboarding assistant.";
       EvGenerate (sp ++ nl ++ get_dynamic_system_instruction (security demo_assistant_online))
         hist "Where is the cafeteria?"].
Proof.
  exists (match fst (get_response_body ascii_lower demo_hash format_no_placeholders
                      demo_assistant_online "Where is the cafeteria?" empty_world) with
          | Ok s => s | Err _ => EmptyString end),
         (snd (get_response_body ascii_lower demo_hash format_no_placeholders
                 demo_assistant_online "Where is the cafeteria?" empty_world)).
  assert (Hc : fst (check_query_permission ascii_lower demo_hash
                      (security demo_assistant_online) "Where is the cafeteria?") = true)
    by (vm_compute; reflexivity).
  assert (Hr : get_response_body ascii_lower demo_hash format_no_placeholders
                 demo_assistant_online "Where is the cafeteria?" empty_world =
               (Ok (match fst (get_response_body ascii_lower demo_hash format_no_placeholders
                                 demo_assistant_online "Where is the cafeteria?" empty_world) with
                    | Ok s => s | Err _ => EmptyString end),
                snd (get_response_body ascii_lower demo_hash format_no_placeholders
                       demo_assistant_online "Where is the cafeteria?" empty_world)))
    by (vm_compute; reflexivity).
  split; [exact Hc|split; [exact Hr|]].
  destruct (get_response_allowed_calls ascii_lower demo_hash format_no_placeholders
              demo_assistant_online "Where is the cafeteria?" _ empty_world _ Hc Hr)
    as (pol & sp & hist & resp & H1 & H2 & H3 & H4 & H5 & H6).
  exists pol, sp, hist, resp.
  split; [exact H1|split; [exact H2|split; [exact H3|split; [exact H4|split; [exact H5|]]]]].
  rewrite H6. reflexivity.
Defined.

(** ** The guardrails' decision *)

Lemma prefix_app_r (k a b : string) :
  String.prefix k a = true -> String.prefix k (a ++ b) = true.
Proof.
  revert k. induction a as [|c a IH]; intros k H; destruct k as [|d k];
    try reflexivity; simpl in H |- *; try discriminate; [now destruct b|].
  destruct (ascii_dec d c); [now apply IH|discriminate].
Qed.

Lemma contains_of_prefix (k s : string) :
  String.prefix k s = true -> contains k s = true.
Proof.
  intros H. destruct s as [|c s];
    [change (contains k "") with (if String.prefix k "" then true else false)
    |change (contains k (String c s))
       with (if String.prefix k (String c s) then true else contains k s)];
    rewrite H; reflexivity.
Qed.

(** Python's [kw in s] survives text appended after [s] ... *)
Lemma contains_app_r (k a b : string) :
  contains k a = true -> contains k (a ++ b) = true.
Proof.
  induction a as [|c a IH]; intros H.
  - change (contains k "") with (if String.prefix k "" then true else false) in H.
    destruct (String.prefix k "") eqn:E; [|discriminate].
    apply contains_of_prefix, (prefix_app_r _ _ _ E).
  - change (contains k (String c a))
      with (if String.prefix k (String c a) then true else contains k a) in H.
    change (contains k (String c a ++ b))
      with (if String.prefix k (String c a ++ b) then true else contains k (a ++ b)).
    destruct (String.prefix k (String c a)) eqn:E.
    + rewrite (prefix_app_r _ _ b E). reflexivity.
    + destruct (String.prefix k (String c a ++ b)); [reflexivity|auto].
Qed.

(** ... and text prepended before it. *)
Lemma contains_app_l (k a b : string) :
  contains k b = true -> contains k (a ++ b) = true.
Proof.
  induction a as [|c a IH]; intros H; [exact H|].
  change (contains k (String c a ++ b))
    with (if String.prefix k (String c a ++ b) then true else contains k (a ++ b)).
  destruct (String.prefix k (String c a ++ b)); [reflexivity|auto].
Qed.

Lemma any_in_true (kws : list string) (s : string) :
  any_in kws s = true <-> exists kw, In kw kws /\ contains kw s = true.
Proof. unfold any_in. apply existsb_exists. Qed.

Lemma check_allowed_spec (str_lower : string -> string) (str_hash : string -> Z)
  (g : Guard) (q : string) :
  (fst (check_query_permission str_lower str_hash g q) = true <->
   (forall kw, In kw CONFIDENTIAL_KEYWORDS -> contains kw (str_lower q) = false) /\
   (any_in FACILITY_KEYWORDS (str_lower q) = true -> has_facility_access g = true) /\
   (forall kw, In kw (restricted_keywords (permissions g)) ->
      contains kw (str_lower q) = false)) /\
  (fst (check_query_permission str_lower str_hash g q) = true ->
   snd (check_query_permission str_lower str_hash g q) = EmptyString).
Proof.
  unfold check_query_permission.
  destruct (first_match CONFIDENTIAL_KEYWORDS (str_lower q)) as [kw|] eqn:E1.
  { unfold first_match in E1. apply find_some in E1 as [Hin Hc].
    simpl. split; [split; [discriminate|]|discriminate].
    intros [H _]. rewrite (H kw Hin) in Hc. discriminate. }
  destruct (any_in FACILITY_KEYWORDS (str_lower q) && negb (has_facility_access g)) eqn:E2.
  { apply andb_true_iff in E2 as [Hf Ha]. simpl.
    split; [split; [discriminate|]|discriminate].
    intros [_ [H _]]. rewrite (H Hf) in Ha. discriminate. }
  destruct (first_match (restricted_keywords (permissions g)) (str_lower q))
    as [kw|] eqn:E3.
  { unfold first_match in E3. apply find_some in E3 as [Hin Hc].
    simpl. split; [split; [discriminate|]|discriminate].
    intros [_ [_ H]]. rewrite (H kw Hin) in Hc. discriminate. }
  unfold first_match in E1, E3. cbn [fst snd].
  split; [split; [intros _|reflexivity]|reflexivity].
  split; [exact (fun kw Hin => find_none _ _ E1 kw Hin)|].
  split; [|exact (fun kw Hin => find_none _ _ E3 kw Hin)].
  intros Hf. rewrite Hf in E2. destruct (has_facility_access g); [reflexivity|discriminate].
Qed.

Lemma restricted_incl_levels (l1 l2 : Z) :
  1 <= l1 -> l1 <= l2 -> l2 <= 5 ->
  incl (restricted_keywords (permissions_of l2)) (restricted_keywords (permissions_of l1)).
Proof.
  intros H1 H12 H2.
  destruct (level_cases l1) as [ -> | [ -> | [ -> | [ -> | -> ]]]]; [lia|..];
  destruct (level_cases l2) as [ -> | [ -> | [ -> | [ -> | -> ]]]]; try lia;
  intros x; vm_compute; tauto.
Qed.

(** [check_query_permission] accepts a query, with an empty denial message,
    exactly when its lower-cased text contains no confidential keyword,
    contains a facility keyword only if the actor has facility access, and
    contains none of the restricted keywords of the actor's clearance. *)
Theorem check_query_permission_allowed_iff (str_lower : string -> string)
  (str_hash : string -> Z) (g : Guard) (q : string) :
  (fst (check_query_permission str_lower str_hash g q) = true <->
   (forall kw, In kw CONFIDENTIAL_KEYWORDS -> contains kw (str_lower q) = false) /\
   (any_in FACILITY_KEYWORDS (str_lower q) = true -> has_facility_access g = true) /\
   (forall kw, In kw (restricted_keywords (permissions g)) ->
      contains kw (str_lower q) = false)) /\
  (fst (check_query_permission str_lower str_hash g q) = true ->
   snd (check_query_permission str_lower str_hash g q) = EmptyString).
Proof. apply check_allowed_spec. Qed.

(** More clearance never loses access: a query accepted for an actor of
    level [l1] is accepted for any actor of a level between [l1] and 5 that
    has facility access whenever the first one has. *)
Theorem check_query_permission_monotone (str_lower : string -> string)
  (str_hash : string -> Z) (g1 g2 : Guard) (q : string) :
  1 <= scl_level g1 -> scl_level g1 <= scl_level g2 -> scl_level g2 <= 5 ->
  (has_facility_access g1 = true -> has_facility_access g2 = true) ->
  fst (check_query_permission str_lower str_hash g1 q) = true ->
  fst (check_query_permission str_lower str_hash g2 q) = true.
Proof.
  intros H1 H12 H2 Hacc Hq.
  apply (proj1 (proj1 (check_allowed_spec str_lower str_hash g1 q))) in Hq
    as (Hc & Hf & Hr).
  apply (proj2 (proj1 (check_allowed_spec str_lower str_hash g2 q))).
  split; [exact Hc|split; [auto|]].
  intros kw Hin. apply Hr.
  exact (restricted_incl_levels _ _ H1 H12 H2 kw Hin).
Qed.

Lemma check_query_permission_monotone_witness :
  (1 <= scl_level {| scl_level := 2; location := "Umbrella Europe";
                     location_security := "BETA"; has_facility_access := false |} /\
   scl_level {| scl_level := 2; location := "Umbrella Europe";
                location_security := "BETA"; has_facility_access := false |} <=
   scl_level {| scl_level := 4; location := "Raccoon City HQ";
                location_security := "ALPHA"; has_facility_access := true |} /\
   scl_level {| scl_level := 4; location := "Raccoon City HQ";
                location_security := "ALPHA"; has_facility_access := true |} <= 5) /\
  fst (check_query_permission ascii_lower demo_hash
         {| scl_level := 2; location := "Umbrella Europe";
            location_security := "BETA"; has_facility_access := false |}
         "Where is the cafeteria?") = true /\
  fst (check_query_permission ascii_lower demo_hash
         {| scl_level := 4; location := "Raccoon City HQ";
            location_security := "ALPHA"; has_facility_access := true |}
         "Where is the cafeteria?") = true.
Proof.
  split; [simpl; lia|].
  assert (Hq : fst (check_query_permission ascii_lower demo_hash
                      {| scl_level := 2; location := "Umbrella Europe";
                         location_security := "BETA"; has_facility_access := false |}
                      "Where is the cafeteria?") = true) by (vm_compute; reflexivity).
  split; [exact Hq|].
  apply (check_query_permission_monotone ascii_lower demo_hash
           {| scl_level := 2; location := "Umbrella Europe";
              location_security := "BETA"; has_facility_access := false |}
           {| scl_level := 4; location := "Raccoon City HQ";
              location_security := "ALPHA"; has_facility_access := true |}
           "Where is the cafeteria?"); simpl; try lia; auto.
Defined.

Lemma ascii_lower_app (x y : string) : ascii_lower (x ++ y) = ascii_lower x ++ ascii_lower y.
Proof. induction x as [|c x IH]; simpl; [reflexivity|now rewrite IH]. Qed.

Lemma is_ascii_text_app (x y : string) :
  is_ascii_text (x ++ y) = (is_ascii_text x && is_ascii_text y)%bool.
Proof. induction x as [|c x IH]; simpl; [reflexivity|now rewrite IH, andb_assoc]. Qed.

(** Keywords are matched as plain substrings of the lower-cased query, so
    adding ASCII text before or after a denied ASCII query never gets it
    accepted (for a [str.lower] that, like Python's, lowers ASCII text
    letter by letter). *)
Theorem check_query_permission_padding (str_lower : string -> string)
  (str_hash : string -> Z) (g : Guard) (p q s : string) :
  (forall x, is_ascii_text x = true -> str_lower x = ascii_lower x) ->
  is_ascii_text p = true -> is_ascii_text q = true -> is_ascii_text s = true ->
  fst (check_query_permission str_lower str_hash g q) = false ->
  fst (check_query_permission str_lower str_hash g (p ++ q ++ s)) = false.
Proof.
  intros Hlow Hpa Hqa Hsa Hq.
  assert (Hsplit : str_lower (p ++ q ++ s) = ascii_lower p ++ str_lower q ++ ascii_lower s).
  { rewrite Hlow by (rewrite !is_ascii_text_app, Hpa, Hqa, Hsa; reflexivity).
    rewrite !ascii_lower_app, (Hlow q Hqa). reflexivity. }
  destruct (fst (check_query_permission str_lower str_hash g (p ++ q ++ s))) eqn:Hp;
    [|reflexivity].
  exfalso.
  apply (proj1 (proj1 (check_allowed_spec str_lower str_hash g _))) in Hp
    as (Hc & Hf & Hr).
  rewrite Hsplit in Hc, Hf, Hr.
  assert (Hlift : forall kw, contains kw (str_lower q) = true ->
            contains kw (ascii_lower p ++ str_lower q ++ ascii_lower s) = true).
  { intros kw H. apply contains_app_l, contains_app_r, H. }
  assert (Hq' : fst (check_query_permission str_lower str_hash g q) = true).
  { apply (proj2 (proj1 (check_allowed_spec str_lower str_hash g q))).
    split; [|split].
    - intros kw Hin. destruct (contains kw (str_lower q)) eqn:E; [|reflexivity].
      pose proof (Hlift kw E) as L. rewrite (Hc kw Hin) in L. discriminate.
    - intros Hany. apply Hf. apply any_in_true in Hany as (kw & Hin & Hk).
      apply any_in_true. exists kw. split; [exact Hin|exact (Hlift kw Hk)].
    - intros kw Hin. destruct (contains kw (str_lower q)) eqn:E; [|reflexivity].
      pose proof (Hlift kw E) as L. rewrite (Hr kw Hin) in L. discriminate. }
  congruence.
Qed.

Lemma check_query_permission_padding_witness :
  (forall x, is_ascii_text x = true -> ascii_lower x = ascii_lower x) /\
  is_ascii_text "Could you tell me the " = true /\ is_ascii_text "Salary" = true /\
  is_ascii_text "ies of my team?" = true /\
  fst (check_query_permission ascii_lower demo_hash
         {| scl_level := 2; location := "Umbrella Europe";
            location_security := "BETA"; has_facility_access := false |}
         "Salary") = false /\
  fst (check_query_permission ascii_lower demo_hash
         {| scl_level := 2; location := "Umbrella Europe";
            location_security := "BETA"; has_facility_access := false |}
         ("Could you tell me the " ++ "Salary" ++ "ies of my team?")) = false.
Proof.
  assert (Hl : forall x, is_ascii_text x = true -> ascii_lower x = ascii_lower x)
    by (intros; reflexivity).
  assert (Hp : is_ascii_text "Could you tell me the " = true) by reflexivity.
  assert (Hqa : is_ascii_text "Salary" = true) by reflexivity.
  assert (Hs : is_ascii_text "ies of my team?" = true) by reflexivity.
  assert (Hq : fst (check_query_permission ascii_lower demo_hash
                      {| scl_level := 2; location := "Umbrella Europe";
                         location_security := "BETA"; has_facility_access := false |}
                      "Salary") = false) by (vm_compute; reflexivity).
  split; [exact Hl|split; [exact Hp|split; [exact Hqa|split; [exact Hs|split; [exact Hq|]]]]].
  exact (check_query_permission_padding ascii_lower demo_hash _ _ _ _ Hl Hp Hqa Hs Hq).
Defined.

Lemma permissions_of_outside (l : Z) : ~ (1 <= l <= 5) -> permissions_of l = perm_1.
Proof.
  intros H. unfold permissions_of. cbn [lookup_perm SCL_PERMISSIONS].
  destruct (Z.eqb_spec l 1); [lia|]. destruct (Z.eqb_spec l 2); [lia|].
  destruct (Z.eqb_spec l 3); [lia|]. destruct (Z.eqb_spec l 4); [lia|].
  destruct (Z.eqb_spec l 5); [lia|]. reflexivity.
Qed.

Lemma scl_instruction_outside (l : Z) :
  ~ (1 <= l <= 5) -> assoc_Z SCL_SYSTEM_INSTRUCTIONS l = None.
Proof.
  intros H. cbn [assoc_Z SCL_SYSTEM_INSTRUCTIONS].
  destruct (Z.eqb_spec l 1); [lia|]. destruct (Z.eqb_spec l 2); [lia|].
  destruct (Z.eqb_spec l 3); [lia|]. destruct (Z.eqb_spec l 4); [lia|].
  destruct (Z.eqb_spec l 5); [lia|]. reflexivity.
Qed.

(** A clearance level outside 1..5 (possible for a hand-built employee dict)
    is treated as level 1 everywhere the guard uses it: the same
    permissions, so the same retrieval breadth and the same accept/deny
    decision on every query, and the same system instruction. *)
Theorem unknown_level_as_level_1 (str_lower : string -> string) (str_hash : string -> Z)
  (g : Guard) (q : string) :
  ~ (1 <= scl_level g <= 5) ->
  let g1 := {| scl_level := 1; location := location g;
               location_security := location_security g;
               has_facility_access := has_facility_access g |} in
  permissions g = permissions g1 /\
  get_retrieval_k g = get_retrieval_k g1 /\
  get_dynamic_system_instruction g = get_dynamic_system_instruction g1 /\
  fst (check_query_permission str_lower str_hash g q) =
  fst (check_query_permission str_lower str_hash g1 q).
Proof.
  intros H g1.
  assert (Hp : permissions g = permissions g1)
    by (unfold permissions; rewrite permissions_of_outside by exact H; reflexivity).
  split; [exact Hp|split; [unfold get_retrieval_k; now rewrite Hp|split]].
  - unfold get_dynamic_system_instruction. rewrite scl_instruction_outside by exact H.
    reflexivity.
  - unfold check_query_permission. rewrite Hp.
    destruct (first_match CONFIDENTIAL_KEYWORDS _); [reflexivity|].
    destruct (any_in FACILITY_KEYWORDS _ && _); [reflexivity|].
    destruct (first_match _ _); reflexivity.
Qed.

Lemma unknown_level_as_level_1_witness :
  ~ (1 <= scl_level {| scl_level := 7; location := "Unknown";
                       location_security := "GAMMA"; has_facility_access := false |} <= 5) /\
  get_retrieval_k {| scl_level := 7; location := "Unknown";
                     location_security := "GAMMA"; has_facility_access := false |} =
  get_retrieval_k {| scl_level := 1; location := "Unknown";
                     location_security := "GAMMA"; has_facility_access := false |}.
Proof.
  assert (H : ~ (1 <= scl_level {| scl_level := 7; location := "Unknown";
                                   location_security := "GAMMA";
                                   has_facility_access := false |} <= 5)) by (simpl; lia).
  split; [exact H|].
  exact (proj1 (proj2 (unknown_level_as_level_1 ascii_lower demo_hash _ "hello" H))).
Defined.

(** Whatever the actor's clearance value, including ones outside 1..5, the
    store is asked for between 2 and 10 documents. *)
Theorem get_retrieval_k_bounds (g : Guard) : 2 <= get_retrieval_k g <= 10.
Proof.
  unfold get_retrieval_k, permissions.
  destruct (Z_le_dec 1 (scl_level g)); destruct (Z_le_dec (scl_level g) 5).
  - destruct (level_cases (scl_level g)) as [ -> | [ -> | [ -> | [ -> | -> ]]]];
      [lia|..]; vm_compute; split; discriminate.
  - rewrite permissions_of_outside by lia. vm_compute. split; discriminate.
  - rewrite permissions_of_outside by lia. vm_compute. split; discriminate.
  - rewrite permissions_of_outside by lia. vm_compute. split; discriminate.
Qed.

(** ** The employee generator *)

Lemma choice_some {A} (l : list A) (i : nat) :
  l <> [] -> exists x, choice l i = Some x /\ In x l.
Proof.
  intros Hl. unfold choice.
  assert (Hlt : (Nat.modulo i (length l) < length l)%nat).
  { apply Nat.mod_upper_bound. destruct l; [congruence|discriminate]. }
  destruct (nth_error l (Nat.modulo i (length l))) as [x|] eqn:E.
  - exists x. split; [reflexivity|exact (nth_error_In _ _ E)].
  - apply nth_error_None in E. lia.
Qed.

Lemma assoc_str_key {V} (l : list (string * V)) (k : string) :
  In k (map fst l) -> exists v, assoc_str l k = Some v.
Proof.
  induction l as [|[k' v] l IH]; simpl; [tauto|]. intros [<-|H].
  - rewrite String.eqb_refl. eauto.
  - destruct (String.eqb k k'); eauto.
Qed.

Lemma assoc_str_in {V} (l : list (string * V)) (k : string) (v : V) :
  assoc_str l k = Some v -> In (k, v) l.
Proof.
  induction l as [|[k' v'] l IH]; simpl; [discriminate|].
  destruct (String.eqb_spec k k') as [->|_]; [intros E; injection E as ->; now left|].
  intros E. right. exact (IH E).
Qed.

(** Every role of [ROLE_DEPARTMENT_MAPPING] has a clearance in 1..5 and a
    non-empty list of allowed locations, each a key of [LOCATION_PROTOCOLS]. *)
Definition role_row_ok (row : string * RoleData) : bool :=
  let rd := snd row in
  negb (Nat.eqb (length (allowed_locations rd)) 0) &&
  (1 <=? role_scl rd) && (role_scl rd <=? 5) &&
  forallb (fun loc => match assoc_str LOCATION_PROTOCOLS loc with
                      | Some _ => true | None => false end)
          (allowed_locations rd).

Lemma roles_ok : forallb role_row_ok ROLE_DEPARTMENT_MAPPING = true.
Proof. vm_compute. reflexivity. Qed.

Lemma role_ok (p : string) (rd : RoleData) :
  In (p, rd) ROLE_DEPARTMENT_MAPPING ->
  allowed_locations rd <> [] /\ 1 <= role_scl rd <= 5 /\
  (forall loc, In loc (allowed_locations rd) ->
     exists pr, assoc_str LOCATION_PROTOCOLS loc = Some pr).
Proof.
  intros Hin. pose proof (proj1 (forallb_forall _ _) roles_ok _ Hin) as H.
  unfold role_row_ok in H. cbn [snd] in H.
  apply andb_true_iff in H as [H Hlocs]. apply andb_true_iff in H as [H H5].
  apply andb_true_iff in H as [H0 H1]. apply Z.leb_le in H1, H5.
  split; [|split; [lia|]].
  - intros E. rewrite E in H0. discriminate.
  - intros loc Hl. pose proof (proj1 (forallb_forall _ _) Hlocs loc Hl) as Hs. cbv beta in Hs.
    destruct (assoc_str LOCATION_PROTOCOLS loc) as [pr|]; [eauto|discriminate].
Qed.

Lemma make_employee_some (i j : nat) : exists e, make_employee i j = Some e.
Proof.
  unfold make_employee.
  destruct (choice_some (map fst ROLE_DEPARTMENT_MAPPING) i) as (position & -> & Hp);
    [discriminate|].
  destruct (assoc_str_key _ _ Hp) as [rd Hrd]. rewrite Hrd.
  destruct (role_ok _ _ (assoc_str_in _ _ _ Hrd)) as (Hne & _ & _).
  destruct (choice_some (allowed_locations rd) j) as (loc & -> & _); [exact Hne|].
  eexists. reflexivity.
Qed.

(** [generate_employee_data] never fails: each [random.choice] draws from a
    non-empty sequence and each drawn position is a key of the mapping, so
    one employee is produced per requested draw. *)
Theorem generate_employee_data_length (draws : list (nat * nat)) :
  exists emps, generate_employee_data draws = Some emps /\ length emps = length draws.
Proof.
  induction draws as [|[i j] rest IH]; simpl; [eexists; split; reflexivity|].
  destruct IH as (es & -> & Hl). destruct (make_employee_some i j) as [e ->].
  exists (e :: es). split; [reflexivity|simpl; now rewrite Hl].
Qed.

(** Every generated employee is consistent with the tables: its department
    and clearance are those of its position in [ROLE_DEPARTMENT_MAPPING],
    the clearance is within 1..5, its location is one of the position's
    allowed locations and a key of [LOCATION_PROTOCOLS], and its security
    level and emergency contact are that location's, never the ["UNKNOWN"]
    and ["ext. 0-HELP"] defaults. *)
Theorem generate_employee_data_consistent (draws : list (nat * nat))
  (emps : list Employee) (e : Employee) :
  generate_employee_data draws = Some emps -> In e emps ->
  exists rd, assoc_str ROLE_DEPARTMENT_MAPPING (e_position e) = Some rd /\
    e_department e = role_department rd /\
    e_clearance_level e = role_scl rd /\ 1 <= e_clearance_level e <= 5 /\
    In (e_location e) (allowed_locations rd) /\
    exists pr, assoc_str LOCATION_PROTOCOLS (e_location e) = Some pr /\
      e_location_security_level e = security_level pr /\
      e_emergency_contact_ext e = emergency_contact pr.
Proof.
  revert emps. induction draws as [|[i j] rest IH]; intros emps Hgen Hin; simpl in Hgen.
  - injection Hgen as <-. destruct Hin.
  - destruct (make_employee i j) as [e0|] eqn:He0; [|discriminate].
    destruct (generate_employee_data rest) as [es|]; [|discriminate].
    injection Hgen as <-. destruct Hin as [<-|Hin]; [|exact (IH es eq_refl Hin)].
    unfold make_employee in He0.
    destruct (choice (map fst ROLE_DEPARTMENT_MAPPING) i) as [position|]; [|discriminate].
    destruct (assoc_str ROLE_DEPARTMENT_MAPPING position) as [rd|] eqn:Hrd; [|discriminate].
    destruct (choice (allowed_locations rd) j) as [loc|] eqn:Hloc; [|discriminate].
    destruct (role_ok _ _ (assoc_str_in _ _ _ Hrd)) as (_ & Hscl & Hlocs).
    unfold choice in Hloc. apply nth_error_In in Hloc.
    destruct (Hlocs loc Hloc) as [pr Hpr].
    rewrite Hpr in He0. injection He0 as <-.
    exists rd. split; [exact Hrd|split; [reflexivity|split; [reflexivity|split; [exact Hscl|]]]].
    split; [exact Hloc|]. exists pr. split; [exact Hpr|split; reflexivity].
Qed.

Lemma generate_employee_data_consistent_witness :
  generate_employee_data [(0%nat, 0%nat)] =
    Some [{| e_position := "Research Scientist"; e_department := "R&D";
             e_clearance_level := 3; e_location := "Raccoon City HQ";
             e_location_security_level := "ALPHA"; e_has_facility_access := false;
             e_emergency_contact_ext := "ext. 4-UMBRELLA" |}] /\
  exists rd, assoc_str ROLE_DEPARTMENT_MAPPING "Research Scientist" = Some rd /\
    "R&D" = role_department rd /\ 3 = role_scl rd /\ 1 <= 3 <= 5 /\
    In "Raccoon City HQ" (allowed_locations rd) /\
    exists pr, assoc_str LOCATION_PROTOCOLS "Raccoon City HQ" = Some pr /\
      "ALPHA" = security_level pr /\ "ext. 4-UMBRELLA" = emergency_contact pr.
Proof.
  assert (H : generate_employee_data [(0%nat, 0%nat)] =
    Some [{| e_position := "Research Scientist"; e_department := "R&D";
             e_clearance_level := 3; e_location := "Raccoon City HQ";
             e_location_security_level := "ALPHA"; e_has_facility_access := false;
             e_emergency_contact_ext := "ext. 4-UMBRELLA" |}]) by (vm_compute; reflexivity).
  split; [exact H|].
  exact (generate_employee_data_consistent _ _ _ H (or_introl eq_refl)).
Defined.

(** ** The transmission envelope *)

Definition marker : string := "**TRANSMISSION START**".

Lemma lstrip_app (a b : string) : lstrip a <> EmptyString -> lstrip (a ++ b) = lstrip a ++ b.
Proof.
  induction a as [|c a IH]; simpl; [congruence|].
  destruct (is_space c); [exact IH|reflexivity].
Qed.

Lemma lstrip_app_fixed (u v : string) :
  lstrip v = v -> exists w, lstrip (u ++ v) = w ++ v.
Proof.
  intros Hv. induction u as [|c u IH]; simpl; [exists EmptyString; exact Hv|].
  destruct (is_space c); [exact IH|]. exists (String c u). reflexivity.
Qed.

Lemma prefix_split (p s : string) : String.prefix p s = true -> exists t, s = p ++ t.
Proof.
  revert s. induction p as [|c p IH]; intros s H; [exists s; reflexivity|].
  destruct s as [|d s]; simpl in H; [discriminate|].
  destruct (ascii_dec c d) as [<-|]; [|discriminate].
  destruct (IH s H) as [t ->]. exists t. reflexivity.
Qed.

Lemma string_of_list_ascii_app (l1 l2 : list ascii) :
  string_of_list_ascii (l1 ++ l2) = string_of_list_ascii l1 ++ string_of_list_ascii l2.
Proof. induction l1 as [|c l1 IH]; simpl; [reflexivity|now rewrite IH]. Qed.

Lemma list_ascii_of_string_app (a b : string) :
  list_ascii_of_string (a ++ b) = (list_ascii_of_string a ++ list_ascii_of_string b)%list.
Proof. induction a as [|c a IH]; simpl; [reflexivity|now rewrite IH]. Qed.

Lemma str_rev_app (a b : string) : str_rev (a ++ b) = str_rev b ++ str_rev a.
Proof.
  unfold str_rev. rewrite list_ascii_of_string_app, rev_app_distr.
  apply string_of_list_ascii_app.
Qed.

Lemma str_rev_involutive (a : string) : str_rev (str_rev a) = a.
Proof.
  unfold str_rev. rewrite list_ascii_of_string_of_list_ascii, rev_involutive.
  apply string_of_list_ascii_of_string.
Qed.

(** [strip] keeps a prefix that does not end in whitespace and that
    [lstrip] has already exposed. *)
Lemma strip_keeps_prefix (p s : string) :
  lstrip (str_rev p) = str_rev p -> (exists t, lstrip s = p ++ t) ->
  exists t, strip s = p ++ t.
Proof.
  intros Hp [t Ht]. unfold strip. rewrite Ht, str_rev_app.
  destruct (lstrip_app_fixed (str_rev t) (str_rev p) Hp) as [w ->].
  rewrite str_rev_app, str_rev_involutive. eexists. reflexivity.
Qed.

Lemma str_app_assoc (a b c : string) : (a ++ b) ++ c = a ++ (b ++ c).
Proof. induction a as [|x a IH]; simpl; [reflexivity|now rewrite IH]. Qed.

(** A template that opens with a literal whose [lstrip] starts with the
    marker keeps the marker in front after [.strip()]. *)
Lemma strip_template_marker (A rest : string) :
  lstrip A <> EmptyString -> String.prefix marker (lstrip A) = true ->
  exists t, strip (A ++ rest) = marker ++ t.
Proof.
  intros HA HP. destruct (prefix_split _ _ HP) as [t0 Ht0].
  apply strip_keeps_prefix; [vm_compute; reflexivity|].
  exists (t0 ++ rest). rewrite lstrip_app by exact HA. rewrite Ht0. apply str_app_assoc.
Qed.

Lemma contains_marker_app (t : string) : contains marker (marker ++ t) = true.
Proof. apply contains_of_prefix, prefix_app. Qed.

Lemma format_transmission_shape (a : Assistant) (r : string) :
  (contains marker r = true /\ format_transmission_response a r = r) \/
  (exists t, format_transmission_response a r = marker ++ t).
Proof.
  unfold format_transmission_response. cbv zeta.
  destruct (contains "**TRANSMISSION START**" r) eqn:Hr; [left; split; [exact Hr|reflexivity]|].
  right. apply strip_template_marker; [vm_compute; discriminate|vm_compute; reflexivity].
Qed.

(** [_format_transmission_response] always returns text holding the
    ["**TRANSMISSION START**"] marker, so applying it to its own output
    changes nothing. *)
Theorem format_transmission_response_idempotent (a : Assistant) (r : string) :
  contains marker (format_transmission_response a r) = true /\
  format_transmission_response a (format_transmission_response a r) =
  format_transmission_response a r.
Proof.
  assert (Hm : contains marker (format_transmission_response a r) = true).
  { destruct (format_transmission_shape a r) as [[Hc ->]|[t ->]];
      [exact Hc|apply contains_marker_app]. }
  split; [exact Hm|].
  unfold format_transmission_response at 1. cbv zeta.
  change "**TRANSMISSION START**" with marker. rewrite Hm. reflexivity.
Qed.

Lemma denial_has_marker (str_lower : string -> string) (str_hash : string -> Z)
  (g : Guard) (q : string) :
  fst (check_query_permission str_lower str_hash g q) = false ->
  contains marker (snd (check_query_permission str_lower str_hash g q)) = true.
Proof.
  unfold check_query_permission.
  destruct (first_match CONFIDENTIAL_KEYWORDS _); [intros _; vm_compute; reflexivity|].
  destruct (any_in FACILITY_KEYWORDS _ && _); [intros _; vm_compute; reflexivity|].
  destruct (first_match _ _) as [kw|]; [intros _|discriminate].
  cbn [snd]. unfold generate_scl_denial, format_scl_insufficient.
  match goal with |- contains _ (?A ++ _) = true =>
    apply contains_app_r; vm_compute; reflexivity end.
Qed.

Lemma get_response_body_ok_value (str_lower : string -> string)
  (str_hash : string -> Z) (str_format : string -> list (string * string) -> Result string)
  (a : Assistant) (q r : string) (w w' : World) :
  get_response_body str_lower str_hash str_format a q w = (Ok r, w') ->
  (fst (check_query_permission str_lower str_hash (security a) q) = false /\
   r = snd (check_query_permission str_lower str_hash (security a) q)) \/
  (exists resp, r = format_transmission_response a resp).
Proof.
  unfold get_response_body.
  destruct (check_query_permission str_lower str_hash (security a) q) as [[|] msg].
  - cbn [negb]. unfold bind at 1.
    destruct (retrieve_policy_information_ok a q w) as (s & w1 & Er & _). rewrite Er.
    unfold bind at 1, emit.
    unfold bind at 1, lift.
    destruct (str_format _ _) as [sp|e1]; [|discriminate].
    unfold bind at 1. rewrite get_langchain_messages_spec.
    unfold bind at 1, emit.
    unfold bind at 1, lift.
    destruct (llm a _ _ _) as [resp|e2]; [|discriminate].
    unfold bind. rewrite add_message_spec. simpl. rewrite add_message_spec. simpl.
    intros E. injection E as <- _. right. eauto.
  - cbn [negb]. unfold bind. rewrite add_message_spec. simpl. rewrite add_message_spec.
    simpl. intros E. injection E as <- _.
    left. split; reflexivity.
Qed.

(** Every string [get_response] returns, whether a denial, an answer of the
    LLM or the degraded-system notice, holds the
    ["**TRANSMISSION START**"] marker. *)
Theorem get_response_in_envelope (str_lower : string -> string)
  (str_hash : string -> Z) (str_format : string -> list (string * string) -> Result string)
  (a : Assistant) (q : string) (w : World) :
  exists r, fst (get_response str_lower str_hash str_format a q w) = Ok r /\
    contains marker r = true.
Proof.
  unfold get_response, try_except.
  destruct (get_response_body str_lower str_hash str_format a q w) as [[r|e] w'] eqn:Hb.
  - exists r. split; [reflexivity|].
    destruct (get_response_body_ok_value _ _ _ _ _ _ _ _ Hb) as [[Hf ->]|[resp ->]].
    + exact (denial_has_marker _ _ _ _ Hf).
    + destruct (format_transmission_shape a resp) as [[Hc ->]|[t ->]];
        [exact Hc|apply contains_marker_app].
  - exists error_response. split; [reflexivity|]. vm_compute. reflexivity.
Qed.

(** ** Sessions and roles *)

(** Only rows whose role is ["human"] or ["ai"] reach the LLM: storing a
    message under any other role leaves the LangChain view of every
    session's stored rows unchanged, and so what [get_langchain_messages]
    reads from a store that does not fail. *)
Theorem add_message_other_role_invisible (s s' role content : string) (w : World) :
  role <> "human" -> role <> "ai" ->
  flat_map to_langchain (session_messages s' (history (snd (add_message s role content w)))) =
  flat_map to_langchain (session_messages s' (history w)) /\
  (forallb negb (db_faults w) = true ->
   fst (get_langchain_messages s' (snd (add_message s role content w))) =
   fst (get_langchain_messages s' w)).
Proof.
  intros Hh Ha.
  assert (Hv : flat_map to_langchain
                 (session_messages s' (history (snd (add_message s role content w)))) =
               flat_map to_langchain (session_messages s' (history w))).
  { rewrite add_message_spec. cbn [snd history].
    destruct (nth 0 (db_faults w) false); [now rewrite app_nil_r|].
    unfold session_messages. rewrite filter_app, map_app, flat_map_app. simpl.
    destruct (String.eqb s s'); simpl; [|now rewrite app_nil_r].
    apply String.eqb_neq in Hh, Ha. rewrite Hh, Ha. simpl. now rewrite app_nil_r. }
  split; [exact Hv|].
  intros Hf. rewrite !get_langchain_messages_spec. cbn [fst].
  assert (F1 : nth 0 (db_faults (snd (add_message s role content w))) false = false).
  { rewrite add_message_spec. exact (no_fault_nth _ 0 (no_fault_tl _ Hf)). }
  rewrite F1, (no_fault_nth _ 0 Hf), Hv. reflexivity.
Qed.

Lemma add_message_other_role_invisible_witness :
  "system" <> "human" /\ "system" <> "ai" /\
  flat_map to_langchain (session_messages "default"
    (history (snd (add_message "default" "system" "You are the onboarding assistant."
                     empty_world)))) = [] /\
  fst (get_langchain_messages "default"
         (snd (add_message "default" "system" "You are the onboarding assistant."
                 empty_world))) = Ok [].
Proof.
  assert (H1 : "system" <> "human") by discriminate.
  assert (H2 : "system" <> "ai") by discriminate.
  split; [exact H1|split; [exact H2|]].
  destruct (add_message_other_role_invisible "default" "default" "system"
              "You are the onboarding assistant." empty_world H1 H2) as [Hv Hr].
  split; [rewrite Hv; reflexivity|].
  rewrite (Hr eq_refl). reflexivity.
Defined.

(** A turn of [get_response] in one session leaves the stored messages of
    every other session as they were. *)
Theorem get_response_other_session (str_lower : string -> string)
  (str_hash : string -> Z) (str_format : string -> list (string * string) -> Result string)
  (a : Assistant) (q s : string) (w : World) :
  s <> session_id a ->
  session_messages s (history (snd (get_response str_lower str_hash str_format a q w))) =
  session_messages s (history w).
Proof.
  intros Hs.
  assert (E : String.eqb (session_id a) s = false)
    by (apply String.eqb_neq; congruence).
  unfold get_response, try_except.
  destruct (get_response_body str_lower str_hash str_format a q w) as [[r|e] w'] eqn:Hb;
    cbv beta iota; unfold ret; cbn [snd].
  - destruct (get_response_body_ok_history _ _ _ _ _ _ _ _ Hb) as (f1 & f2 & Hh & _).
    rewrite Hh. unfold session_messages.
    destruct f1, f2; rewrite !filter_app; simpl; rewrite ?E; simpl; now rewrite ?app_nil_r.
  - rewrite (get_response_body_err_history _ _ _ _ _ _ _ _ Hb). reflexivity.
Qed.

Lemma get_response_other_session_witness :
  "previous-session" <> session_id demo_assistant_online /\
  session_messages "previous-session"
    (history (snd (get_response ascii_lower demo_hash format_no_placeholders
                     demo_assistant_online "Where is the cafeteria?"
                     {| history := [{| row_session := "previous-session"; row_role := "human";
                                       row_content := "Hello" |}];
                        trace := []; db_faults := [] |}))) = [("human", "Hello")].
Proof.
  assert (H : "previous-session" <> session_id demo_assistant_online) by discriminate.
  split; [exact H|].
  rewrite (get_response_other_session ascii_lower demo_hash format_no_placeholders
             demo_assistant_online "Where is the cafeteria?" "previous-session" _ H).
  reflexivity.
Defined.
